(** * showdown.py: parsing, room state and client session, in Rocq

    A shallow embedding of [showdown/utils.py], [showdown/room.py] and the
    event-routing, login and command methods of [showdown/client.py].

    Python [str] values are modelled by [string]; a character is an
    [ascii] read as the Unicode code point 0..255 (Latin-1), and the
    character classes Python consults ([str.lower], [str.isspace],
    [str.splitlines] boundaries, the [re] class [\w]) are written out for
    that range. Exceptions are modelled by the [exn] type and an error
    result. *)

From Stdlib Require Import Ascii ZArith.
From stdpp Require Import base gmap strings list pretty.

Open Scope string_scope.

(** Python exceptions the modelled code can raise. *)
Inductive exn :=
| IndexError
| ValueError
| TypeError
| NameError
| KeyError
| AttributeError
| Exception (msg : string).

(** Result of a Python call: a value or a raised exception. *)
Inductive result (A : Type) :=
| Ok (a : A)
| Err (e : exn).
Arguments Ok {A} a.
Arguments Err {A} e.

Definition bind {A B} (r : result A) (k : A -> result B) : result B :=
  match r with Ok a => k a | Err e => Err e end.

Notation "'let!' x := r 'in' k" := (bind r (fun x => k))
  (at level 200, x name, r at level 100, k at level 200).

(** Python's [seq[i]] on a list, raising [IndexError] out of range. *)
Definition py_index {A} (l : list A) (i : nat) : result A :=
  match l !! i with Some x => Ok x | None => Err IndexError end.

Module Utils.

Definition code (c : ascii) : nat := nat_of_ascii c.

Local Open Scope nat_scope.

(** [str.lower] on one code point of 0..255. *)
Definition py_lower_char (c : ascii) : ascii :=
  let n := code c in
  if ((65 <=? n) && (n <=? 90)) || ((192 <=? n) && (n <=? 222) && negb (n =? 215))
  then ascii_of_nat (n + 32) else c.

Definition py_lower (s : string) : string :=
  String.string_of_list_ascii (map py_lower_char (String.list_ascii_of_string s)).

(** [str.isspace] on one code point of 0..255. *)
Definition py_isspace (c : ascii) : bool :=
  let n := code c in
  ((9 <=? n) && (n <=? 13)) || ((28 <=? n) && (n <=? 32)) || (n =? 133) || (n =? 160).

(** [str.isalnum] on one code point of 0..255; the [re] class [\w] is
    this plus ['_']. *)
Definition py_isalnum (c : ascii) : bool :=
  let n := code c in
  ((48 <=? n) && (n <=? 57)) || ((65 <=? n) && (n <=? 90))
  || ((97 <=? n) && (n <=? 122))
  || (n =? 170) || (n =? 178) || (n =? 179) || (n =? 181) || (n =? 185)
  || (n =? 186) || ((188 <=? n) && (n <=? 190))
  || ((192 <=? n) && (n <=? 255) && negb (n =? 215) && negb (n =? 247)).

(** Line boundaries of [str.splitlines] in 0..255 ([\r] handled apart). *)
Definition is_line_boundary (c : ascii) : bool :=
  let n := code c in
  ((10 <=? n) && (n <=? 13)) || ((28 <=? n) && (n <=? 30)) || (n =? 133).

Local Open Scope string_scope.

Fixpoint drop_while (p : ascii -> bool) (l : list ascii) : list ascii :=
  match l with
  | [] => []
  | c :: l' => if p c then drop_while p l' else l
  end.

(** [str.strip()] *)
Definition py_strip (s : string) : string :=
  let l := drop_while py_isspace (String.list_ascii_of_string s) in
  String.string_of_list_ascii (rev (drop_while py_isspace (rev l))).

(** [re.sub(r'(\W|_)', '', s)]: keep the alphanumeric characters. *)
Definition remove_non_word (s : string) : string :=
  String.string_of_list_ascii (List.filter py_isalnum (String.list_ascii_of_string s)).

(** utils.py, [name_to_id]:
    [re.sub(r'(\W|_)', '', input_str.lower()).strip()] *)
Definition name_to_id (input_str : string) : string :=
  py_strip (remove_non_word (py_lower input_str)).

(** [str.split(sep)] for a one-character separator; [cur] is the field
    read so far. *)
Fixpoint split_aux (sep : ascii) (cur : string) (s : string) : list string :=
  match s with
  | EmptyString => [cur]
  | String c rest =>
      if Ascii.eqb c sep then cur :: split_aux sep "" rest
      else split_aux sep (cur +:+ String c EmptyString) rest
  end.

Definition py_split (s : string) (sep : ascii) : list string := split_aux sep "" s.

(** [str.splitlines()]: a last line without terminator is kept, an empty
    tail is not; ["\r\n"] is one boundary. *)
Fixpoint splitlines_aux (cur : string) (s : string) : list string :=
  match s with
  | EmptyString => if String.eqb cur "" then [] else [cur]
  | String c rest =>
      if (code c =? 13)%nat then
        match rest with
        | String d rest' =>
            if (code d =? 10)%nat then cur :: splitlines_aux "" rest'
            else cur :: splitlines_aux "" rest
        | EmptyString => cur :: splitlines_aux "" rest
        end
      else if is_line_boundary c then cur :: splitlines_aux "" rest
      else splitlines_aux (cur +:+ String c EmptyString) rest
  end.

Definition py_splitlines (s : string) : list string := splitlines_aux "" s.

(** [s.startswith(p)] *)
Definition py_startswith (s p : string) : bool := String.prefix p s.

(** [s[1:]] *)
Definition py_drop1 (s : string) : string :=
  match s with EmptyString => EmptyString | String _ r => r end.

(** utils.py, [parse_text_input]:
<<
    tokens = text_input.strip().split('|')
    if len(tokens) == 1: inp_type = 'rawtext'; params = tokens
    else: inp_type = tokens[1].lower(); params = tokens[2:]
>> *)
Definition parse_text_input (text_input : string) : string * list string :=
  let tokens := py_split (py_strip text_input) "|"%char in
  match tokens with
  | [_] => ("rawtext", tokens)
  | _ :: t1 :: rest => (py_lower t1, rest)
  | [] => ("rawtext", tokens)  (* [str.split] never returns [] *)
  end.

(** utils.py, [clean_message_content]. [warnings] is not imported in
    utils.py, so the call [warnings.warn(...)] on the long branch raises
    [NameError] before the truncation [content[:300]] is reached. *)
Definition clean_message_content (content : string) : result string :=
  if (300 <? String.length content)%nat then Err NameError
  else Ok content.

(** A call [utils.clean_message_content(content, **kwargs)]: the function
    has the single positional parameter [content], so any keyword
    argument makes the call raise [TypeError] before its body runs. *)
Definition call_clean_message_content (content : string) (kwargs : list (string * bool))
  : result string :=
  match kwargs with
  | [] => clean_message_content content
  | _ :: _ => Err TypeError
  end.

(** The rows loop of [parse_socket_input]:
<<
    for row in loaded:
        loaded = row.splitlines()
        if loaded[0].startswith('>'):
            room_id = loaded[0][1:] or 'lobby'; raw_events = loaded[1:]
        else:
            room_id = 'lobby'; raw_events = loaded
        for event in raw_events: result.append((room_id, event))
>> *)
Fixpoint parse_rows (rows : list string) : result (list (string * string)) :=
  match rows with
  | [] => Ok []
  | row :: rows' =>
      let lines := py_splitlines row in
      let! first := py_index lines 0 in
      let '(room_id, raw_events) :=
        if py_startswith first ">" then
          (let rid := py_drop1 first in if String.eqb rid "" then "lobby" else rid,
           tail lines)
        else ("lobby", lines) in
      let! rest := parse_rows rows' in
      Ok (app (map (pair room_id) raw_events) rest)
  end.

(** utils.py, [parse_socket_input]. [json.loads] is the standard
    library's decoder and is a parameter here: [json_loads] gives the
    decoded array of block strings, or the exception. *)
Definition parse_socket_input (json_loads : string -> result (list string))
  (socket_input : string) : result (list (string * string)) :=
  if py_startswith socket_input "a" then
    let! loaded := json_loads (py_drop1 socket_input) in
    parse_rows loaded
  else Err ValueError.

End Utils.

Module Users.
Import Utils.

(** Modelled from the spec: [showdown/user.py] ([User] and its
    [name_matches]) is not among the repository files. The spec's User
    has a normalized identifier and the raw display name ("display name
    (raw, may include out-of-band rank/status decoration prefixed to the
    name)"), and win matching "compare[s] against the current display
    name, not the normalized id". *)
Record User := mkUser { id : string; name : string }.

(** Modelled from the spec: [User(user_str)]. *)
Definition make_user (user_str : string) : User :=
  {| id := name_to_id user_str; name := user_str |}.

(** Modelled from the spec: [User.name_matches(other_name)]. *)
Definition name_matches (u : User) (other_name : string) : bool :=
  String.eqb (name u) other_name.

End Users.

Module Rooms.
Import Utils Users.

(** room.py, [Room]: [logs] is a [deque(maxlen=max_logs)]. *)
Record Room := mkRoom {
  id : string;
  logs : list string;
  max_logs : nat;
  userlist : gmap string User;
  title : option string
}.

Definition new_room (room_id : string) (max_logs : nat) : Room :=
  {| id := room_id; logs := []; max_logs := max_logs; userlist := ∅; title := None |}.

(** [deque.append] with a [maxlen]: the oldest entries are evicted. *)
Definition deque_append (maxlen : nat) (l : list string) (x : string) : list string :=
  let l' := app l [x] in drop (length l' - maxlen) l'.

Definition set_userlist (r : Room) (m : gmap string User) : Room :=
  {| id := id r; logs := logs r; max_logs := max_logs r; userlist := m; title := title r |}.

Definition set_title (r : Room) (t : option string) : Room :=
  {| id := id r; logs := logs r; max_logs := max_logs r; userlist := userlist r; title := t |}.

Definition set_logs (r : Room) (l : list string) : Room :=
  {| id := id r; logs := l; max_logs := max_logs r; userlist := userlist r; title := title r |}.

(** [Room.add_user]: [self.userlist[new_user.id] = new_user] *)
Definition add_user (r : Room) (user_str : string) : Room :=
  let u := make_user user_str in
  set_userlist r (<[ Users.id u := u ]> (userlist r)).

(** [Room.remove_user]: [self.userlist.pop(user_id, None)] *)
Definition remove_user (r : Room) (user_id : string) : Room :=
  set_userlist r (delete user_id (userlist r)).

(** [Room.update]: an [if] for ["title"], then an [if]/[elif] chain. *)
Definition room_update (r : Room) (inp_type : string) (params : list string) : result Room :=
  let! r :=
    if String.eqb inp_type "title" then
      let! t := py_index params 0 in Ok (set_title r (Some t))
    else Ok r in
  if String.eqb inp_type "users" then
    let! p0 := py_index params 0 in
    Ok (fold_left add_user (tail (py_split p0 ","%char)) r)
  else if String.eqb inp_type "n" then
    match params with
    | [user_str; old_id] => Ok (add_user (remove_user r old_id) user_str)
    | _ => Err ValueError
    end
  else if String.eqb inp_type "l" then
    let! p0 := py_index params 0 in Ok (remove_user r (name_to_id p0))
  else if String.eqb inp_type "j" then
    let! p0 := py_index params 0 in Ok (add_user r p0)
  else Ok r.

(** room.py, [Battle]: a [Room] with the battle fields; [players] is the
    dict [{'p1': None, 'p2': None}] updated by [player] events. *)
Record Battle := mkBattle {
  room : Room;
  rules : list string;
  players : gmap string (option User);
  rated : bool;
  ended : bool;
  tier : option string;
  winner : option User;
  loser : option User;
  winner_id : option string;
  loser_id : option string
}.

(** [Battle.__init__] *)
Definition new_battle (room_id : string) (max_logs : nat) : Battle :=
  {| room := new_room room_id max_logs; rules := [];
     players := <[ "p1" := None ]> (<[ "p2" := None ]> ∅);
     rated := false; ended := false; tier := None;
     winner := None; loser := None; winner_id := None; loser_id := None |}.

(** [self.players[k]]: [KeyError] on a missing key. *)
Definition player (b : Battle) (k : string) : result (option User) :=
  match players b !! k with Some v => Ok v | None => Err KeyError end.

(** [self.players[k].name_matches(n)]: [AttributeError] on [None]. *)
Definition player_matches (p : option User) (n : string) : result bool :=
  match p with Some u => Ok (name_matches u n) | None => Err AttributeError end.

Definition set_room (b : Battle) (r : Room) : Battle :=
  {| room := r; rules := rules b; players := players b; rated := rated b;
     ended := ended b; tier := tier b; winner := winner b; loser := loser b;
     winner_id := winner_id b; loser_id := loser_id b |}.

(** The outcome assignments of the [win] branch, [ended = True] included. *)
Definition set_outcome (b : Battle) (w l : option User) (wid lid : option string) : Battle :=
  {| room := room b; rules := rules b; players := players b; rated := rated b;
     ended := true; tier := tier b; winner := w; loser := l;
     winner_id := wid; loser_id := lid |}.

(** [Battle.update]: [Room.update] first, then the battle events. In the
    [win] branch, a name that matches neither player leaves the outcome
    fields as they were and only [self.ended = True] runs. *)
Definition battle_update (b : Battle) (inp_type : string) (params : list string) : result Battle :=
  let! r := room_update (room b) inp_type params in
  let b := set_room b r in
  if String.eqb inp_type "player" then
    let! player_id := py_index params 0 in
    let! nm := py_index params 1 in
    Ok {| room := room b; rules := rules b;
          players := <[ player_id := Some (make_user nm) ]> (players b);
          rated := rated b; ended := ended b; tier := tier b; winner := winner b;
          loser := loser b; winner_id := winner_id b; loser_id := loser_id b |}
  else if String.eqb inp_type "rated" then
    Ok {| room := room b; rules := rules b; players := players b; rated := true;
          ended := ended b; tier := tier b; winner := winner b; loser := loser b;
          winner_id := winner_id b; loser_id := loser_id b |}
  else if String.eqb inp_type "tier" then
    let! p0 := py_index params 0 in
    Ok {| room := room b; rules := rules b; players := players b; rated := rated b;
          ended := ended b; tier := Some (name_to_id p0); winner := winner b;
          loser := loser b; winner_id := winner_id b; loser_id := loser_id b |}
  else if String.eqb inp_type "rule" then
    let! p0 := py_index params 0 in
    Ok {| room := room b; rules := app (rules b) [p0]; players := players b;
          rated := rated b; ended := ended b; tier := tier b; winner := winner b;
          loser := loser b; winner_id := winner_id b; loser_id := loser_id b |}
  else if String.eqb inp_type "win" then
    let! winner_name := py_index params 0 in
    let! p1 := player b "p1" in
    let! m1 := player_matches p1 winner_name in
    if m1 then
      let! p2 := player b "p2" in
      Ok (set_outcome b p1 p2 (Some "p1") (Some "p2"))
    else
      let! p2 := player b "p2" in
      let! m2 := player_matches p2 winner_name in
      if m2 then
        let! p1' := player b "p1" in
        Ok (set_outcome b p2 p1' (Some "p2") (Some "p1"))
      else
        Ok (set_outcome b (winner b) (loser b) (winner_id b) (loser_id b))
  else Ok b.

(** Successive [Battle.update] calls; the first exception stops them. *)
Fixpoint battle_apply (b : Battle) (evs : list (string * list string)) : result Battle :=
  match evs with
  | [] => Ok b
  | (t, ps) :: evs' => let! b' := battle_update b t ps in battle_apply b' evs'
  end.

(** Successive [Room.update] calls; the first exception stops them. *)
Fixpoint room_apply (r : Room) (evs : list (string * list string)) : result Room :=
  match evs with
  | [] => Ok r
  | (t, ps) :: evs' => let! r' := room_update r t ps in room_apply r' evs'
  end.

(** A room object of the client: [room.class_map] has [Room] and [Battle]. *)
Inductive RoomObj :=
| ChatRoom (r : Room)
| BattleRoom (b : Battle).

(** [room.class_map.get(room_type, room.Room)(room_id, max_logs=...)] *)
Definition make_room (room_type room_id : string) (max_logs : nat) : RoomObj :=
  if String.eqb room_type "battle" then BattleRoom (new_battle room_id max_logs)
  else ChatRoom (new_room room_id max_logs).

(** [Room.add_content], first statement: [self.logs.append(content)]. *)
Definition log_content (o : RoomObj) (content : string) : RoomObj :=
  match o with
  | ChatRoom r => ChatRoom (set_logs r (deque_append (max_logs r) (logs r) content))
  | BattleRoom b =>
      let r := room b in
      BattleRoom (set_room b (set_logs r (deque_append (max_logs r) (logs r) content)))
  end.

(** [self.update(inp_type, *params)], dispatched on the object's class. *)
Definition update_obj (o : RoomObj) (inp_type : string) (params : list string) : result RoomObj :=
  match o with
  | ChatRoom r => let! r' := room_update r inp_type params in Ok (ChatRoom r')
  | BattleRoom b => let! b' := battle_update b inp_type params in Ok (BattleRoom b')
  end.

End Rooms.

Module Client.
Import Utils Users Rooms.

(** Hook calls and calls to external collaborators, in the order made.
    The hooks are the overridable [on_*] coroutines of [Client];
    [LoginRequest] is the call [self.server.login_async(name, password,
    challstr, challengekeyid)] to the credential-exchange service. *)
Inductive Call :=
| LoginRequest (name password challstr challengekeyid : string)
| OnQueryResponse (response_type data : string)
| OnChatMessage (room_id inp_type : string) (params : list string)
| OnPrivateMessage (params : list string)
| OnRoomInit (o : RoomObj)
| OnRoomDeinit (o : RoomObj)
| OnReceive (room_id inp_type : string) (params : list string).

(** The fields of [Client] the modelled methods use; [challengekeyid]
    and [challstr] start as [None]; [output_queue] is the [asyncio.Queue]
    as the list of items put into it; [calls] records [Call]s. *)
Record Client := mkClient {
  name : string;
  password : string;
  challengekeyid : option string;
  challstr : option string;
  rooms : gmap string RoomObj;
  max_room_logs : nat;
  autologin : bool;
  output_queue : list string;
  calls : list Call
}.

(** [Client.__init__] followed by [start(autologin)]. *)
Definition new_client (name password : string) (max_room_logs : nat) (autologin : bool) : Client :=
  {| name := name; password := password; challengekeyid := None; challstr := None;
     rooms := ∅; max_room_logs := max_room_logs; autologin := autologin;
     output_queue := []; calls := [] |}.

(** A method of [Client]: the state after the call, also when it raises. *)
Definition M (A : Type) := Client -> result A * Client.

Definition ret {A} (a : A) : M A := fun st => (Ok a, st).
Definition throw {A} (e : exn) : M A := fun st => (Err e, st).
Definition mbind {A B} (m : M A) (k : A -> M B) : M B :=
  fun st => match m st with
            | (Ok a, st') => k a st'
            | (Err e, st') => (Err e, st')
            end.
Definition get : M Client := fun st => (Ok st, st).
Definition put (st : Client) : M unit := fun _ => (Ok tt, st).
Definition lift {A} (r : result A) : M A := fun st => (r, st).

Notation "x <-- m ;; k" := (mbind m (fun x => k)) (at level 100, m at next level, right associativity).
Notation "m ;;; k" := (mbind m (fun _ => k)) (at level 100, right associativity).

Definition set_rooms (st : Client) (rs : gmap string RoomObj) : Client :=
  {| name := name st; password := password st; challengekeyid := challengekeyid st;
     challstr := challstr st; rooms := rs; max_room_logs := max_room_logs st;
     autologin := autologin st; output_queue := output_queue st; calls := calls st |}.

Definition set_challenge (st : Client) (k c : string) : Client :=
  {| name := name st; password := password st; challengekeyid := Some k;
     challstr := Some c; rooms := rooms st; max_room_logs := max_room_logs st;
     autologin := autologin st; output_queue := output_queue st; calls := calls st |}.

Definition record (c : Call) : M unit :=
  fun st => (Ok tt,
    {| name := name st; password := password st; challengekeyid := challengekeyid st;
       challstr := challstr st; rooms := rooms st; max_room_logs := max_room_logs st;
       autologin := autologin st; output_queue := output_queue st;
       calls := app (calls st) [c] |}).

(** [Client.add_output]: [self.output_queue.put(output_str)] *)
Definition add_output (s : string) : M unit :=
  fun st => (Ok tt,
    {| name := name st; password := password st; challengekeyid := challengekeyid st;
       challstr := challstr st; rooms := rooms st; max_room_logs := max_room_logs st;
       autologin := autologin st; output_queue := app (output_queue st) [s];
       calls := calls st |}).

(** Python truthiness of a [str] or [None] attribute. *)
Definition truthy (o : option string) : bool :=
  match o with Some s => negb (String.eqb s "") | None => false end.
Definition truthy_str (s : string) : bool := negb (String.eqb s "").

(** [Client.login]: the three checks, then the call to the
    credential-exchange collaborator. Its answer, the [NameError] of a
    refused login, the [/trn] frame and [on_login] follow the external
    exchange and are not modelled here; [More.login_complete] adds them,
    given the answer. *)
Definition login : M unit :=
  st <-- get ;;
  if negb (truthy (challengekeyid st)) then
    throw (Exception "Cannot login, challstr has not been received yet")
  else if negb (truthy_str (name st)) then
    throw (Exception "Cannot login, no username has been specified")
  else if negb (truthy_str (password st)) then
    throw (Exception "Cannot login, no password has been specified")
  else
    record (LoginRequest (name st) (password st)
              (default "" (challstr st)) (default "" (challengekeyid st))).

Definition autologin_msg : string :=
  "Cannot login without username and password. If you don't want your client to be logged in, you can use Client.start(autologin=False).".

(** [self.rooms[room_id].add_content(inp)]: the line is logged before the
    update runs, so the log entry stays when the update raises. *)
Definition room_add_content (room_id : string) (o : RoomObj) (inp : string) : M unit :=
  let o1 := log_content o inp in
  st <-- get ;;
  put (set_rooms st (<[ room_id := o1 ]> (rooms st))) ;;;
  let '(inp_type, params) := parse_text_input inp in
  o2 <-- lift (update_obj o1 inp_type params) ;;
  st' <-- get ;;
  put (set_rooms st' (<[ room_id := o2 ]> (rooms st'))).

(** The body of the [for room_id, inp in inputs] loop of
    [Client.receiver]. [message.ChatMessage] and [message.PrivateMessage]
    are not among the repository files, and the [json.loads] of a query
    response and the replay upload it triggers go to the standard library
    and the replay service: those hooks receive the raw parameters.
    Not modelled here, then: the [ValueError] of [json.loads] on a
    malformed query response, the [save_replay_async] call, the errors
    the message constructors may raise, and, in the [challstr] branch, what
    [login] does after the credential exchange (see [login]). *)
Definition process_input (room_id inp : string) : M unit :=
  let '(inp_type, params) := parse_text_input inp in
  (if String.eqb inp_type "challstr" then
     match params with
     | [k; c] =>
         st <-- get ;;
         put (set_challenge st k c) ;;;
         st <-- get ;;
         if truthy_str (name st) && truthy_str (password st) && autologin st then login
         else if autologin st then throw (Exception autologin_msg)
         else ret tt
     | _ => throw ValueError
     end
   else if String.eqb inp_type "queryresponse" then
     response_type <-- lift (py_index params 0) ;;
     record (OnQueryResponse response_type (String.concat "|" (tail params)))
   else if String.eqb inp_type "c:" || String.eqb inp_type "c" then
     record (OnChatMessage room_id inp_type params)
   else if String.eqb inp_type "pm" then
     record (OnPrivateMessage params)
   else if String.eqb inp_type "init" then
     room_type <-- lift (py_index params 0) ;;
     st <-- get ;;
     let o := make_room room_type room_id (max_room_logs st) in
     put (set_rooms st (<[ room_id := o ]> (rooms st))) ;;;
     record (OnRoomInit o)
   else if String.eqb inp_type "deinit" then
     st <-- get ;;
     match rooms st !! room_id with
     | Some o => put (set_rooms st (delete room_id (rooms st))) ;;; record (OnRoomDeinit o)
     | None => ret tt
     end
   else ret tt) ;;;
  st <-- get ;;
  (match rooms st !! room_id with
   | Some o => room_add_content room_id o inp
   | None => ret tt
   end) ;;;
  record (OnReceive room_id inp_type params).

(** The loop of [Client.receiver] over the decoded [(room_id, inp)] pairs;
    an exception ends it. *)
Fixpoint process_inputs (inputs : list (string * string)) : M unit :=
  match inputs with
  | [] => ret tt
  | (room_id, inp) :: rest => process_input room_id inp ;;; process_inputs rest
  end.

(** [Client.say] *)
Definition say (room_id content : string) (strict : bool) : M unit :=
  content <-- lift (call_clean_message_content content [("strict", strict)]) ;;
  let room_id := if String.eqb room_id "lobby" then "" else room_id in
  add_output (room_id +:+ "|" +:+ content).

(** [Client.private_message] *)
Definition private_message (user_name content : string) (strict : bool) : M unit :=
  content <-- lift (call_clean_message_content content [("strict", strict)]) ;;
  let user_id := name_to_id user_name in
  add_output ("|/msg " +:+ user_id +:+ ", " +:+ content).

End Client.

(** * Helpers for the statements *)

Module Spec.
Import Utils.

(** The characters [name_to_id] keeps, before [strip]. *)
Definition id_chars (l : list ascii) : list ascii :=
  List.filter py_isalnum (map py_lower_char l).

(** [sep in s] *)
Definition has_char (sep : ascii) (s : string) : bool :=
  existsb (fun c => Ascii.eqb c sep) (String.list_ascii_of_string s).

(** A one-character string of the given code point. *)
Definition chr (n : nat) : string := String (ascii_of_nat n) "".

(** The spec's block rule (section 4.2): if the first line of a block
    begins with the room marker ['>'], the rest of that line is the room
    id (the empty id read as ["lobby"]) and the remaining lines are its
    events; otherwise all the lines are events of ["lobby"]. *)
Definition decode_block_spec (b : string) : list (string * string) :=
  match py_splitlines b with
  | [] => []
  | first :: rest =>
      if py_startswith first ">" then
        let rid := py_drop1 first in
        map (pair (if String.eqb rid "" then "lobby" else rid)) rest
      else map (pair "lobby") (first :: rest)
  end.

(** The two frames of the spec's examples, as JSON text and decoded. *)
Definition frame_two_blocks : string :=
  "[" +:+ chr 34 +:+ ">room1\nA\nB" +:+ chr 34 +:+ ", " +:+ chr 34 +:+ ">room2\nC" +:+ chr 34 +:+ "]".
Definition blocks_two : list string :=
  [">room1" +:+ chr 10 +:+ "A" +:+ chr 10 +:+ "B"; ">room2" +:+ chr 10 +:+ "C"].
Definition frame_no_marker : string := "[" +:+ chr 34 +:+ "X\nY" +:+ chr 34 +:+ "]".
Definition blocks_no_marker : list string := ["X" +:+ chr 10 +:+ "Y"].

(** [json.loads] on the two example frames. *)
Definition json_loads_examples (p : string) : result (list string) :=
  if String.eqb p frame_two_blocks then Ok blocks_two
  else if String.eqb p frame_no_marker then Ok blocks_no_marker
  else Err ValueError.

(** The terminal outcome fields of a [Battle]. *)
Definition outcome (b : Rooms.Battle) :
  bool * option Users.User * option Users.User * option string * option string :=
  (Rooms.ended b, Rooms.winner b, Rooms.loser b, Rooms.winner_id b, Rooms.loser_id b).

(** The events of the spec's room-state example. *)
Definition users_leave_join : list (string * list string) :=
  [("users", ["5,user1,user2"]); ("l", ["user1"]); ("j", ["User1"])].

(** A battle with players [Ash] and [Gary], as [player] events set it up. *)
Definition ash_gary : list (string * list string) :=
  [("player", ["p1"; "Ash"]); ("player", ["p2"; "Gary"])].

End Spec.

(** * The other operations of utils.py, room.py and client.py *)

Module More.
Import Utils Users Rooms Client.

(** [str.rstrip()] *)
Definition py_rstrip (s : string) : string :=
  String.string_of_list_ascii (rev (drop_while py_isspace (rev (String.list_ascii_of_string s)))).

(** utils.py, [abbreviate]:
    [content[:20].rstrip() + ('...' if content_length > 20 else '')] *)
Definition abbreviate (content : string) : string :=
  let content_length := String.length content in
  py_rstrip (String.substring 0 20 content)
  +:+ (if (20 <? content_length)%nat then "..." else "").

(** [Client.join]: the lobby (by normalized name) is addressed as [""]. *)
Definition join (room_id : string) : M unit :=
  let room_id := if String.eqb (name_to_id room_id) "lobby" then "" else room_id in
  add_output ("|/join " +:+ room_id).

(** [Client.leave] *)
Definition leave (room_id : string) : M unit :=
  let room_id := if String.eqb (name_to_id room_id) "lobby" then "" else room_id in
  add_output (room_id +:+ "|/leave").

(** [Client.save_replay] *)
Definition save_replay (battle_id : string) : M unit :=
  add_output (battle_id +:+ "|/savereplay").

(** [Client.forfeit] *)
Definition forfeit (battle_id : string) : M unit :=
  add_output (battle_id +:+ "|/forfeit").

(** [str.format] of a [str] argument or [None]. *)
Definition py_format_str (o : option string) : string :=
  match o with Some s => s | None => "None" end.

(** [Client.upload_team]: [team_str] is a [str], or [None]. *)
Definition upload_team (team_str : option string) : M unit :=
  add_output ("|/utm " +:+ py_format_str team_str).

(** [Client.validate_team]: [team_str = team_str or 'null']. *)
Definition validate_team (team_str : option string) (battle_format : string) : M unit :=
  let battle_format := name_to_id battle_format in
  let team_str :=
    match team_str with
    | Some t => if String.eqb t "" then "null" else t
    | None => "null"
    end in
  upload_team (Some team_str) ;;;
  add_output ("|/vtm " +:+ battle_format).

(** [Client.search_battles] *)
Definition search_battles (team_str : option string) (battle_format : string) : M unit :=
  let battle_format := name_to_id battle_format in
  upload_team team_str ;;;
  add_output ("|/search " +:+ battle_format).

(** [Client.query_battles]: [min_elo] is an [int] or [None]; [str.format]
    of an [int] is its decimal text. *)
Definition query_battles (tier : string) (min_elo : option Z) : M unit :=
  let tier := name_to_id tier in
  let output := "|/cmd roomlist " +:+ name_to_id tier in
  let output := match min_elo with
                | Some e => output +:+ ", " +:+ pretty e
                | None => output
                end in
  add_output output.

(** [Client.receiver] on one frame: the control frame ["o"] runs the
    [on_connect] hook; any other frame is decoded by [parse_socket_input]
    and its events are processed in order. *)
Definition receiver (on_connect : M unit) (json_loads : string -> result (list string))
  (socket_input : string) : M unit :=
  if String.eqb socket_input "o" then on_connect
  else
    inputs <-- lift (parse_socket_input json_loads socket_input) ;;
    process_inputs inputs.

(** The class name of a room object, as [self.__class__.__name__]. *)
Definition class_name (o : RoomObj) : string :=
  match o with ChatRoom _ => "Room" | BattleRoom _ => "Battle" end.

(** The [Room] part of a room object. *)
Definition obj_room (o : RoomObj) : Room :=
  match o with ChatRoom r => r | BattleRoom b => room b end.

Definition obj_id (o : RoomObj) : string := Rooms.id (obj_room o).

(** utils.py, [require_client]: the wrapper checks [self.client] and then
    calls the method with the arguments it was given; [has_client] says
    whether [self.client] is set. The message names the class of the object. *)
Definition no_client_msg (o : RoomObj) : string :=
  class_name o +:+
    " object does not have a client -- this function will do nothing. To set a client, initialize the object with "
    +:+ class_name o +:+ "(..., client=your_client)".

Definition require_client {A} (o : RoomObj) (has_client : bool) (f : M A) : M A :=
  if has_client then f else throw (Exception (no_client_msg o)).

(** A method [async def m(self, ..., client=None): await client.m2(...)]:
    the [client] parameter is only bound when the caller passes it
    ([client_arg]); otherwise [client] is [None] and the attribute access
    [client.m2] raises [AttributeError]. The [Client] state is the one of
    the client passed. *)
Definition with_client_arg {A} (client_arg : bool) (f : M A) : M A :=
  if client_arg then f else throw AttributeError.

(** [Room.request_auth] *)
Definition room_request_auth (o : RoomObj) (has_client client_arg : bool) : M unit :=
  require_client o has_client
    (with_client_arg client_arg (add_output (obj_id o +:+ "|/roomauth"))).

(** [Room.say] *)
Definition room_say (o : RoomObj) (content : string) (has_client client_arg : bool) : M unit :=
  require_client o has_client (with_client_arg client_arg (say (obj_id o) content false)).

(** [Room.join] *)
Definition room_join (o : RoomObj) (has_client client_arg : bool) : M unit :=
  require_client o has_client (with_client_arg client_arg (join (obj_id o))).

(** [Room.leave] *)
Definition room_leave (o : RoomObj) (has_client client_arg : bool) : M unit :=
  require_client o has_client (with_client_arg client_arg (leave (obj_id o))).

(** [Battle.save_replay] *)
Definition battle_save_replay (b : Battle) (has_client client_arg : bool) : M unit :=
  require_client (BattleRoom b) has_client
    (with_client_arg client_arg (save_replay (Rooms.id (room b)))).

(** [Battle.forfeit]: [client.forfeit(self.battle_id)]; a [Battle] has no
    attribute [battle_id], so the argument raises [AttributeError] also
    when a client is passed. *)
Definition battle_forfeit (b : Battle) (has_client client_arg : bool) : M unit :=
  require_client (BattleRoom b) has_client
    (with_client_arg client_arg (throw AttributeError)).

(** The answer of the credential-exchange service to [login_async]. *)
Record LoginData := mkLoginData { actionsuccess : bool; assertion : string }.

(** The rest of [Client.login] after [login_async] returned [login_data],
    with the frames written directly to the websocket in [sent]:
<<
    if not login_data['actionsuccess']:
        raise ValueError('...'.format(self.name, result_data))
    else: logger.info('Login succeeded')
    await self.websocket.send('["|/trn {},0,{}"]'.format(self.name, login_data['assertion']))
    await self.on_login(login_data)
>>
    [result_data] is not defined in [login], so evaluating the message of
    the [ValueError] raises [NameError]. *)
Definition login_complete (on_login : M unit) (login_data : LoginData)
  (st : Client) (sent : list string) : result unit * Client * list string :=
  match login st with
  | (Err e, st') => (Err e, st', sent)
  | (Ok _, st') =>
      if actionsuccess login_data then
        let frame := "[" +:+ Spec.chr 34 +:+ "|/trn " +:+ name st' +:+ ",0,"
                     +:+ assertion login_data +:+ Spec.chr 34 +:+ "]" in
        let '(r, st'') := on_login st' in (r, st'', app sent [frame])
      else (Err NameError, st', sent)
  end.

End More.

(** * Properties *)

Module StringProps.
Import Utils Spec.

Lemma append_nil_l (s : string) : "" +:+ s = s.
Proof. reflexivity. Qed.

Lemma append_cons (c : ascii) (a b : string) : String c a +:+ b = String c (a +:+ b).
Proof. reflexivity. Qed.

Lemma append_empty_r (s : string) : s +:+ "" = s.
Proof. induction s as [|c s IH]; [reflexivity|]. rewrite append_cons. congruence. Qed.

Lemma append_assoc_str (a b c : string) : (a +:+ b) +:+ c = a +:+ (b +:+ c).
Proof.
  induction a as [|x a IH]; [reflexivity|]. rewrite !append_cons. congruence.
Qed.

Lemma list_ascii_of_string_app (a b : string) :
  String.list_ascii_of_string (a +:+ b)
  = app (String.list_ascii_of_string a) (String.list_ascii_of_string b).
Proof.
  induction a as [|x a IH]; [reflexivity|]. rewrite append_cons. simpl. congruence.
Qed.

Lemma has_char_app (sep : ascii) (a b : string) :
  has_char sep (a +:+ b) = has_char sep a || has_char sep b.
Proof. unfold has_char. now rewrite list_ascii_of_string_app, existsb_app. Qed.

Lemma split_aux_nosep (sep : ascii) (f cur : string) :
  has_char sep f = false -> split_aux sep cur f = [cur +:+ f].
Proof.
  revert cur. induction f as [|c f IH]; intros cur Hf; cbn [split_aux].
  - now rewrite append_empty_r.
  - unfold has_char in Hf; simpl in Hf. apply orb_false_iff in Hf as [Hc Hf].
    rewrite Hc, IH by exact Hf. now rewrite append_assoc_str.
Qed.

Lemma split_aux_app (sep : ascii) (f rest cur : string) :
  has_char sep f = false ->
  split_aux sep cur (f +:+ String sep rest) = (cur +:+ f) :: split_aux sep "" rest.
Proof.
  revert cur. induction f as [|c f IH]; intros cur Hf.
  - rewrite append_nil_l. cbn [split_aux]. rewrite Ascii.eqb_refl.
    now rewrite append_empty_r.
  - unfold has_char in Hf; simpl in Hf. apply orb_false_iff in Hf as [Hc Hf].
    rewrite append_cons. cbn [split_aux].
    rewrite Hc, IH by exact Hf. now rewrite append_assoc_str.
Qed.

Lemma concat_cons2 (sep f g : string) (gs : list string) :
  String.concat sep (f :: g :: gs) = f +:+ (sep +:+ String.concat sep (g :: gs)).
Proof. reflexivity. Qed.

Lemma py_split_concat (sep : ascii) (fs : list string) :
  fs <> [] -> Forall (fun f => has_char sep f = false) fs ->
  py_split (String.concat (String sep "") fs) sep = fs.
Proof.
  unfold py_split. intros Hne Hall. induction Hall as [|f fs Hf Hfs IH]; [done|].
  destruct fs as [|g gs].
  - cbn [String.concat]. rewrite split_aux_nosep by exact Hf. reflexivity.
  - rewrite concat_cons2, append_cons, append_nil_l.
    rewrite split_aux_app by exact Hf. rewrite IH by done. reflexivity.
Qed.

Lemma split_aux_cons (sep : ascii) (cur s : string) :
  exists h t, split_aux sep cur s = h :: t.
Proof.
  revert cur. induction s as [|c s IH]; intros cur; cbn [split_aux]; [eauto|].
  destruct (Ascii.eqb c sep); eauto.
Qed.

Lemma concat_split_aux (sep : ascii) (cur s : string) :
  String.concat (String sep "") (split_aux sep cur s) = cur +:+ s.
Proof.
  revert cur. induction s as [|c s IH]; intros cur; cbn [split_aux].
  - cbn [String.concat]. now rewrite append_empty_r.
  - destruct (Ascii.eqb c sep) eqn:E.
    + apply Ascii.eqb_eq in E as ->.
      destruct (split_aux_cons sep "" s) as (h & t & Ht).
      specialize (IH ""). rewrite Ht in IH |- *.
      change (String.concat (String sep "") (cur :: h :: t))
        with (cur +:+ (String sep "" +:+ String.concat (String sep "") (h :: t))).
      rewrite IH. reflexivity.
    + rewrite IH, append_assoc_str. reflexivity.
Qed.

Lemma split_aux_nosep_fields (sep : ascii) (cur s : string) :
  has_char sep cur = false ->
  Forall (fun f => has_char sep f = false) (split_aux sep cur s).
Proof.
  revert cur. induction s as [|c s IH]; intros cur Hcur; cbn [split_aux].
  - now constructor.
  - destruct (Ascii.eqb c sep) eqn:E.
    + constructor; [exact Hcur | apply IH; reflexivity].
    + apply IH. rewrite has_char_app, Hcur. unfold has_char; simpl. now rewrite E.
Qed.

Lemma append_char_nonempty (a : string) (c : ascii) (b : string) : a +:+ String c b <> "".
Proof. destruct a; [discriminate | rewrite append_cons; discriminate]. Qed.

Lemma splitlines_aux_nonempty (s cur : string) :
  s <> "" \/ cur <> "" -> splitlines_aux cur s <> [].
Proof.
  revert cur. induction s as [|c s IH]; intros cur Hne; cbn [splitlines_aux].
  - destruct Hne as [Hne|Hne]; [congruence|].
    destruct (String.eqb cur "") eqn:E; [apply String.eqb_eq in E; congruence | discriminate].
  - destruct (code c =? 13)%nat.
    + destruct s as [|d s']; [discriminate|]. destruct (code d =? 10)%nat; discriminate.
    + destruct (is_line_boundary c); [discriminate|].
      apply IH. right. apply append_char_nonempty.
Qed.

End StringProps.

Module NameToIdProps.
Import Utils Spec.

Lemma py_lower_char_idem (c : ascii) : py_lower_char (py_lower_char c) = py_lower_char c.
Proof. destruct c as [[] [] [] [] [] [] [] []]; vm_compute; reflexivity. Qed.

Lemma alnum_not_space (c : ascii) : py_isalnum c = true -> py_isspace c = false.
Proof.
  destruct c as [[] [] [] [] [] [] [] []]; vm_compute;
    first [reflexivity | intro H; discriminate H].
Qed.

Lemma drop_while_all_false (p : ascii -> bool) (l : list ascii) :
  Forall (fun c => p c = false) l -> drop_while p l = l.
Proof. intros H. destruct H as [|c l' Hc _]; simpl; [reflexivity | now rewrite Hc]. Qed.

Lemma py_strip_no_space (l : list ascii) :
  Forall (fun c => py_isspace c = false) l ->
  py_strip (String.string_of_list_ascii l) = String.string_of_list_ascii l.
Proof.
  intros H. unfold py_strip.
  rewrite String.list_ascii_of_string_of_list_ascii, (drop_while_all_false _ l H).
  rewrite (drop_while_all_false _ (rev l)) by (apply Forall_rev; exact H).
  now rewrite rev_involutive.
Qed.

Lemma id_chars_props (l : list ascii) :
  Forall (fun c => py_isalnum c = true /\ py_lower_char c = c) (id_chars l).
Proof.
  induction l as [|c l IH]; simpl; [constructor|].
  unfold id_chars in *. simpl.
  destruct (py_isalnum (py_lower_char c)) eqn:E; [|exact IH].
  constructor; [split; [exact E | apply py_lower_char_idem] | exact IH].
Qed.

Lemma name_to_id_chars (x : string) :
  name_to_id x = String.string_of_list_ascii (id_chars (String.list_ascii_of_string x)).
Proof.
  unfold name_to_id, remove_non_word, py_lower.
  rewrite String.list_ascii_of_string_of_list_ascii.
  apply py_strip_no_space.
  eapply Forall_impl; [apply id_chars_props|].
  intros c [Ha _]. now apply alnum_not_space.
Qed.

Lemma id_chars_fixed (l : list ascii) :
  Forall (fun c => py_isalnum c = true /\ py_lower_char c = c) l -> id_chars l = l.
Proof.
  induction 1 as [|c l [Ha Hl] _ IH]; [reflexivity|].
  unfold id_chars in *. simpl. rewrite Hl, Ha. now rewrite IH.
Qed.

End NameToIdProps.

Module Claims.
Import Utils Users Rooms Client Spec StringProps NameToIdProps.

(** C7: [name_to_id] is idempotent, [name_to_id (name_to_id x) =
    name_to_id x] for every string [x], and it ignores case and rank
    decoration: [name_to_id "+Zarel" = name_to_id "zarel" = "zarel"]. *)
Theorem C7_name_to_id_idempotent :
  (forall x : string, name_to_id (name_to_id x) = name_to_id x) /\
  name_to_id "+Zarel" = name_to_id "zarel" /\ name_to_id "zarel" = "zarel".
Proof.
  split; [|split; reflexivity].
  intros x. rewrite (name_to_id_chars (name_to_id x)).
  rewrite (name_to_id_chars x), String.list_ascii_of_string_of_list_ascii.
  rewrite id_chars_fixed by apply id_chars_props. reflexivity.
Qed.

Lemma parse_text_input_split (s t0 t1 : string) (rest : list string) :
  py_split (py_strip s) "|" = t0 :: t1 :: rest -> parse_text_input s = (py_lower t1, rest).
Proof. intros H. unfold parse_text_input. now rewrite H. Qed.

Lemma py_split_two_fields (t0 t1 r : string) :
  has_char "|" t0 = false -> has_char "|" t1 = false ->
  py_split (t0 +:+ "|" +:+ t1 +:+ "|" +:+ r) "|" = t0 :: t1 :: py_split r "|".
Proof.
  intros H0 H1. unfold py_split.
  rewrite !append_cons, !append_nil_l.
  rewrite split_aux_app by exact H0. rewrite split_aux_app by exact H1.
  reflexivity.
Qed.

(** C1 (as the code does it): for a line whose stripped text has the
    pipe-separated fields [t0 :: t1 :: rest] (two fields or more), the
    event type is [t1] lowercased and the parameters are [rest], the
    fields from the third onward. *)
Theorem C1_parse_text_input_fields (s t0 t1 : string) (rest : list string)
  (Hfields : Forall (fun f => has_char "|" f = false) (t0 :: t1 :: rest))
  (Hs : py_strip s = String.concat "|" (t0 :: t1 :: rest)) :
  parse_text_input s = (py_lower t1, rest).
Proof.
  apply (parse_text_input_split s t0 t1). rewrite Hs.
  apply py_split_concat; [discriminate | exact Hfields].
Qed.

Lemma C1_parse_text_input_fields_witness :
  Forall (fun f => has_char "|" f = false) ["" ; "c:"; "123"; "user"; "hello"] /\
  py_strip "|c:|123|user|hello" = String.concat "|" ["" ; "c:"; "123"; "user"; "hello"] /\
  parse_text_input "|c:|123|user|hello" = (py_lower "c:", ["123"; "user"; "hello"]).
Proof.
  assert (H1 : Forall (fun f => has_char "|" f = false) ["" ; "c:"; "123"; "user"; "hello"])
    by (repeat constructor).
  assert (H2 : py_strip "|c:|123|user|hello"
               = String.concat "|" ["" ; "c:"; "123"; "user"; "hello"])
    by (vm_compute; reflexivity).
  split; [exact H1 | split; [exact H2 |]].
  exact (C1_parse_text_input_fields "|c:|123|user|hello" "" "c:" ["123"; "user"; "hello"] H1 H2).
Defined.

(** C1, counterexample: the parameters of ["|c:|123|user|hello"] start
    at the third field, not at the fourth. *)
Lemma C1_fourth_field_counterexample :
  parse_text_input "|c:|123|user|hello" = ("c:", ["123"; "user"; "hello"]) /\
  parse_text_input "|c:|123|user|hello" <> ("c:", ["user"; "hello"]).
Proof. split; vm_compute; [reflexivity | discriminate]. Qed.

(** C5 (as the code does it): the line is split at every pipe. For a
    stripped line [t0|t1|r], the parameters are the pipe-separated
    fields of [r]: none of them contains a pipe, and joining them with
    ["|"] gives [r] back. *)
Theorem C5_params_split_at_every_pipe (s t0 t1 r : string)
  (H0 : has_char "|" t0 = false) (H1 : has_char "|" t1 = false)
  (Hs : py_strip s = t0 +:+ "|" +:+ t1 +:+ "|" +:+ r) :
  parse_text_input s = (py_lower t1, py_split r "|") /\
  String.concat "|" (snd (parse_text_input s)) = r /\
  Forall (fun p => has_char "|" p = false) (snd (parse_text_input s)).
Proof.
  assert (Hp : parse_text_input s = (py_lower t1, py_split r "|")).
  { apply (parse_text_input_split s t0 t1). rewrite Hs. now apply py_split_two_fields. }
  rewrite Hp. split; [reflexivity|]. simpl. split.
  - unfold py_split. rewrite concat_split_aux. reflexivity.
  - apply split_aux_nosep_fields. reflexivity.
Qed.

Lemma C5_params_split_at_every_pipe_witness :
  has_char "|" "" = false /\ has_char "|" "c:" = false /\
  py_strip "|c:|123|user|hello|world" = "" +:+ "|" +:+ "c:" +:+ "|" +:+ "123|user|hello|world" /\
  (parse_text_input "|c:|123|user|hello|world"
     = (py_lower "c:", py_split "123|user|hello|world" "|") /\
   String.concat "|" (snd (parse_text_input "|c:|123|user|hello|world")) = "123|user|hello|world" /\
   Forall (fun p => has_char "|" p = false) (snd (parse_text_input "|c:|123|user|hello|world"))).
Proof.
  assert (H0 : has_char "|" "" = false) by reflexivity.
  assert (H1 : has_char "|" "c:" = false) by reflexivity.
  assert (Hs : py_strip "|c:|123|user|hello|world"
               = "" +:+ "|" +:+ "c:" +:+ "|" +:+ "123|user|hello|world")
    by (vm_compute; reflexivity).
  split; [exact H0 | split; [exact H1 | split; [exact Hs |]]].
  exact (C5_params_split_at_every_pipe _ _ _ _ H0 H1 Hs).
Defined.

(** C5, counterexample: in ["|c:|123|user|hello|world"] the text
    ["hello|world"] comes back as the two parameters ["hello"] and
    ["world"]. *)
Lemma C5_pipe_in_param_counterexample :
  parse_text_input "|c:|123|user|hello|world" = ("c:", ["123"; "user"; "hello"; "world"]) /\
  ~ List.In "hello|world" (snd (parse_text_input "|c:|123|user|hello|world")).
Proof.
  split; [vm_compute; reflexivity|].
  vm_compute. intros [H|[H|[H|[H|[]]]]]; discriminate H.
Qed.

Lemma parse_rows_spec (blocks : list string) :
  Forall (fun b => b <> "") blocks ->
  parse_rows blocks = Ok (concat (map decode_block_spec blocks)).
Proof.
  induction 1 as [|b bs Hb _ IH]; [reflexivity|].
  cbn [parse_rows map concat]. unfold decode_block_spec.
  destruct (py_splitlines b) as [|first rest] eqn:E.
  - exfalso. apply (splitlines_aux_nonempty b ""); [left; exact Hb | exact E].
  - cbn [py_index lookup list_lookup bind].
    destruct (py_startswith first ">"); cbn [bind]; rewrite IH; reflexivity.
Qed.

(** C6: for a legal frame ['a' ++ payload], whose payload decodes to a
    JSON array of blocks of one or more lines (non-empty strings), [parse_socket_input]
    returns the pairs of each block, block after block and line after line
    in the order received, each block read by the spec's rule
    [decode_block_spec]: a first line ['>' ++ id] gives the room id ([""]
    read as ["lobby"]) of the other lines, and a block without that marker
    has all its lines in ["lobby"]. *)
Theorem C6_parse_socket_input_order (json_loads : string -> result (list string))
  (payload : string) (blocks : list string)
  (Hjson : json_loads payload = Ok blocks)
  (Hblocks : Forall (fun b => b <> "") blocks) :
  parse_socket_input json_loads ("a" +:+ payload) = Ok (concat (map decode_block_spec blocks)).
Proof.
  unfold parse_socket_input.
  assert (Hp : py_startswith ("a" +:+ payload) "a" = true)
    by (destruct payload; vm_compute; reflexivity).
  rewrite Hp. change (py_drop1 ("a" +:+ payload)) with payload.
  rewrite Hjson. cbn [bind]. now apply parse_rows_spec.
Qed.


Lemma C6_parse_socket_input_order_witness :
  json_loads_examples frame_two_blocks = Ok blocks_two /\
  Forall (fun b => b <> "") blocks_two /\
  parse_socket_input json_loads_examples ("a" +:+ frame_two_blocks)
    = Ok [("room1", "A"); ("room1", "B"); ("room2", "C")] /\
  parse_socket_input json_loads_examples ("a" +:+ frame_no_marker)
    = Ok [("lobby", "X"); ("lobby", "Y")].
Proof.
  assert (H1 : json_loads_examples frame_two_blocks = Ok blocks_two) by (vm_compute; reflexivity).
  assert (H2 : Forall (fun b => b <> "") blocks_two)
    by (repeat constructor; discriminate).
  assert (H3 : json_loads_examples frame_no_marker = Ok blocks_no_marker)
    by (vm_compute; reflexivity).
  assert (H4 : Forall (fun b => b <> "") blocks_no_marker)
    by (repeat constructor; discriminate).
  split; [exact H1 | split; [exact H2 | split]].
  - rewrite (C6_parse_socket_input_order json_loads_examples frame_two_blocks blocks_two H1 H2).
    vm_compute. reflexivity.
  - rewrite (C6_parse_socket_input_order json_loads_examples frame_no_marker blocks_no_marker H3 H4).
    vm_compute. reflexivity.
Defined.

Lemma room_update_users (r : Room) (count : string) (toks : list string) :
  has_char "," count = false -> Forall (fun f => has_char "," f = false) toks ->
  room_update r "users" [String.concat "," (count :: toks)] = Ok (fold_left add_user toks r).
Proof.
  intros Hc Ht. unfold room_update. cbn [String.eqb Ascii.eqb Bool.eqb bind py_index lookup list_lookup].
  rewrite (py_split_concat "," (count :: toks)) by (discriminate || now constructor).
  reflexivity.
Qed.

(** C9 (as the code does it): a [users] event whose roster is the count
    token followed by the comma-free tokens [toks] adds one user per
    token of [toks]; and from every room with an empty occupancy map the
    spec's three events ([users "5,user1,user2"], [l "user1"],
    [j "User1"]) succeed and leave exactly two occupants, [user1] shown as
    ["User1"] and [user2], the rest of the room unchanged. *)
Theorem C9_users_leave_join (r : Room) (Hempty : userlist r = ∅) :
  (forall (r0 : Room) (count : string) (toks : list string),
   has_char "," count = false -> Forall (fun f => has_char "," f = false) toks ->
   room_update r0 "users" [String.concat "," (count :: toks)] = Ok (fold_left add_user toks r0)) /\
  exists r', room_apply r users_leave_join = Ok r' /\
    userlist r' = <[ "user1" := make_user "User1" ]> (<[ "user2" := make_user "user2" ]> ∅) /\
    size (userlist r') = 2 /\
    r' = set_userlist r (userlist r').
Proof.
  split; [intros r0 count toks; apply room_update_users|].
  destruct r as [rid lg mx ul tl]. cbn in Hempty. subst ul.
  exists (set_userlist {| id := rid; logs := lg; max_logs := mx; userlist := ∅; title := tl |}
            (<[ "user1" := make_user "User1" ]> (<[ "user2" := make_user "user2" ]> ∅))).
  split; [vm_compute; reflexivity|].
  split; [reflexivity|]. split; [vm_compute; reflexivity | reflexivity].
Qed.

Lemma C9_users_leave_join_witness :
  userlist (new_room "lobby" 5000) = ∅ /\
  room_update (new_room "lobby" 5000) "users" ["5,user1,user2"]
    = Ok (fold_left add_user ["user1"; "user2"] (new_room "lobby" 5000)) /\
  exists r', room_apply (new_room "lobby" 5000) users_leave_join = Ok r' /\
    userlist r' = <[ "user1" := make_user "User1" ]> (<[ "user2" := make_user "user2" ]> ∅) /\
    size (userlist r') = 2 /\ r' = set_userlist (new_room "lobby" 5000) (userlist r').
Proof.
  assert (He : userlist (new_room "lobby" 5000) = ∅) by reflexivity.
  destruct (C9_users_leave_join (new_room "lobby" 5000) He) as [Hu Hr].
  split; [exact He | split; [| exact Hr]].
  exact (Hu (new_room "lobby" 5000) "5" ["user1"; "user2"] eq_refl
            ltac:(repeat constructor)).
Defined.

(** C9, counterexample: after the three events the room has two
    occupants, not one: [user2], added by the roster, is never removed. *)
Lemma C9_one_occupant_counterexample :
  match room_apply (new_room "lobby" 5000) users_leave_join with
  | Ok r => size (userlist r) = 2 /\ userlist r !! "user2" = Some (make_user "user2")
  | Err _ => False
  end.
Proof. vm_compute. split; reflexivity. Qed.

Lemma room_update_win (r : Room) (params : list string) :
  room_update r "win" params = Ok r.
Proof. reflexivity. Qed.

(** C2 (as the code does it): when both player slots hold a user and the
    announced name matches neither display name, the [win] event raises
    nothing, leaves winner, loser and the slot tokens as they were (and
    the rest of the battle too), and sets [ended] to true. *)
Theorem C2_win_no_match_sets_ended (b : Battle) (u1 u2 : User) (n : string)
  (rest : list string)
  (H1 : players b !! "p1" = Some (Some u1)) (H2 : players b !! "p2" = Some (Some u2))
  (Hm1 : name_matches u1 n = false) (Hm2 : name_matches u2 n = false) :
  exists b', battle_update b "win" (n :: rest) = Ok b' /\
    ended b' = true /\ winner b' = winner b /\ loser b' = loser b /\
    winner_id b' = winner_id b /\ loser_id b' = loser_id b /\
    room b' = room b /\ players b' = players b /\ rules b' = rules b /\
    rated b' = rated b /\ tier b' = tier b.
Proof.
  eexists. split.
  - unfold battle_update. rewrite room_update_win. cbn [bind String.eqb Ascii.eqb Bool.eqb].
    unfold player. cbn [players set_room]. rewrite H1.
    cbn [bind player_matches py_index lookup list_lookup].
    rewrite Hm1. rewrite H2. cbn [bind player_matches]. rewrite Hm2.
    reflexivity.
  - repeat split.
Qed.

Lemma C2_win_no_match_sets_ended_witness :
  match battle_apply (new_battle "battle-gen7ou-1" 5000) ash_gary with
  | Ok b => players b !! "p1" = Some (Some (make_user "Ash")) /\
            players b !! "p2" = Some (Some (make_user "Gary")) /\
            name_matches (make_user "Ash") "Misty" = false /\
            name_matches (make_user "Gary") "Misty" = false /\
            exists b', battle_update b "win" ["Misty"] = Ok b' /\
              ended b' = true /\ winner b' = winner b /\ loser b' = loser b /\
              winner_id b' = winner_id b /\ loser_id b' = loser_id b /\
              room b' = room b /\ players b' = players b /\ rules b' = rules b /\
              rated b' = rated b /\ tier b' = tier b
  | Err _ => False
  end.
Proof.
  destruct (battle_apply (new_battle "battle-gen7ou-1" 5000) ash_gary) as [b|e] eqn:E;
    [| vm_compute in E; discriminate E].
  assert (H1 : players b !! "p1" = Some (Some (make_user "Ash")))
    by (vm_compute in E; injection E as <-; vm_compute; reflexivity).
  assert (H2 : players b !! "p2" = Some (Some (make_user "Gary")))
    by (vm_compute in E; injection E as <-; vm_compute; reflexivity).
  assert (Hm1 : name_matches (make_user "Ash") "Misty" = false) by reflexivity.
  assert (Hm2 : name_matches (make_user "Gary") "Misty" = false) by reflexivity.
  split; [exact H1 | split; [exact H2 | split; [exact Hm1 | split; [exact Hm2 |]]]].
  exact (C2_win_no_match_sets_ended b _ _ "Misty" [] H1 H2 Hm1 Hm2).
Defined.

(** C2, counterexample: players [Ash] and [Gary], [win "Misty"]: the
    battle is marked ended, with no winner. *)
Lemma C2_ended_stays_false_counterexample :
  match battle_apply (new_battle "battle-gen7ou-1" 5000) (app ash_gary [("win", ["Misty"])]) with
  | Ok b => ended b = true /\ winner b = None /\ winner_id b = None
  | Err _ => False
  end.
Proof. vm_compute. repeat split. Qed.

(** One [Battle.update]: either the outcome fields are untouched, or the
    event is [win] and the battle is marked ended. *)
Lemma battle_update_outcome (b b' : Battle) (t : string) (ps : list string) :
  battle_update b t ps = Ok b' ->
  outcome b' = outcome b \/ (t = "win" /\ ended b' = true).
Proof.
  intros H. unfold battle_update in H.
  destruct (room_update (room b) t ps) as [r|e]; [cbn [bind] in H | discriminate H].
  destruct (String.eqb t "player") eqn:Ep.
  { destruct (py_index ps 0), (py_index ps 1); cbn [bind] in H; try discriminate H.
    injection H as <-. now left. }
  destruct (String.eqb t "rated") eqn:Er.
  { injection H as <-. now left. }
  destruct (String.eqb t "tier") eqn:Et.
  { destruct (py_index ps 0); cbn [bind] in H; [|discriminate H]. injection H as <-. now left. }
  destruct (String.eqb t "rule") eqn:Eu.
  { destruct (py_index ps 0); cbn [bind] in H; [|discriminate H]. injection H as <-. now left. }
  destruct (String.eqb t "win") eqn:Ew.
  - apply String.eqb_eq in Ew. right. split; [exact Ew|].
    unfold bind in H.
    repeat match type of H with
    | context [match ?x with Ok _ => _ | Err _ => _ end] =>
        destruct x; cbn beta iota in H; try discriminate H
    | context [if ?c then _ else _] => destruct c
    end;
    first [discriminate H | injection H as <-; reflexivity].
  - injection H as <-. now left.
Qed.

(** C3 (as the code does it): along any sequence of events, only [win]
    events change the outcome fields, and [ended] never goes back from
    true to false. From a new battle the outcome stays unset (ended
    false, no winner, loser or slot tokens) until a [win] is applied. *)
Theorem C3_outcome_changes_only_on_win (b b' : Battle) (evs : list (string * list string))
  (Happ : battle_apply b evs = Ok b') :
  (Forall (fun e => fst e <> "win") evs -> outcome b' = outcome b) /\
  (ended b = true -> ended b' = true).
Proof.
  revert b Happ. induction evs as [|[t ps] evs IH]; intros b Happ.
  - cbn in Happ. injection Happ as <-. split; auto.
  - cbn [battle_apply] in Happ.
    destruct (battle_update b t ps) as [b1|e] eqn:E; cbn [bind] in Happ; [|discriminate Happ].
    destruct (IH b1 Happ) as [IHo IHe].
    destruct (battle_update_outcome b b1 t ps E) as [Ho|[Hw He]].
    + split.
      * intros Hf. inversion Hf as [|? ? _ Hf']. rewrite IHo by exact Hf'. exact Ho.
      * intros Hb. apply IHe. unfold outcome in Ho. injection Ho. congruence.
    + split.
      * intros Hf. inversion Hf as [|? ? Hnw _]. simpl in Hnw. contradiction.
      * intros _. apply IHe. exact He.
Qed.

Lemma C3_outcome_changes_only_on_win_witness :
  exists b', battle_apply (new_battle "battle-gen7ou-1" 5000) (app ash_gary [("rated", [])]) = Ok b' /\
    outcome b' = (false, None, None, None, None).
Proof.
  destruct (battle_apply (new_battle "battle-gen7ou-1" 5000) (app ash_gary [("rated", [])]))
    as [b'|e] eqn:E; [| vm_compute in E; discriminate E].
  exists b'. split; [reflexivity|].
  destruct (C3_outcome_changes_only_on_win _ _ _ E) as [Ho _].
  rewrite Ho; [reflexivity|].
  repeat constructor; discriminate.
Defined.

(** C3, counterexample: players [Ash] and [Gary]; [win "Ash"] sets the
    winner to [Ash], and a later [win "Gary"] overwrites it with [Gary]
    (and the slot tokens with [p2]/[p1]). *)
Lemma C3_outcome_overwritten_counterexample :
  match battle_apply (new_battle "battle-gen7ou-1" 5000) (app ash_gary [("win", ["Ash"])]) with
  | Ok b1 =>
      winner b1 = Some (make_user "Ash") /\ winner_id b1 = Some "p1" /\ ended b1 = true /\
      match battle_update b1 "win" ["Gary"] with
      | Ok b2 => winner b2 = Some (make_user "Gary") /\ winner_id b2 = Some "p2"
      | Err _ => False
      end
  | Err _ => False
  end.
Proof. vm_compute. repeat split. Qed.

Lemma login_no_challenge (st : Client) :
  truthy (challengekeyid st) = false ->
  login st = (Err (Exception "Cannot login, challstr has not been received yet"), st).
Proof. intros H. unfold login, mbind, get, throw. rewrite H. reflexivity. Qed.

Lemma login_no_credentials (st : Client) :
  name st = "" \/ password st = "" -> exists e, login st = (Err e, st).
Proof.
  intros Hc. unfold login, mbind, get, throw.
  destruct (truthy (challengekeyid st)); cbn [negb]; [|eauto].
  destruct Hc as [Hc|Hc]; rewrite Hc; cbn.
  - eauto.
  - destruct (truthy_str (name st)); cbn; eauto.
Qed.

(** C8: configuration errors are raised at the call site, leaving the
    client as it was: [login] raises while no challenge has been received
    ([challengekeyid] still [None]) and when the name or the password is
    empty; and a [challstr] event received with auto-login on and no name
    or password raises at once, before any hook is called and before the
    following events of the frame are processed. *)
Theorem C8_config_errors_raised (st : Client) (room_id inp k c : string)
  (rest : list (string * string))
  (Hinp : parse_text_input inp = ("challstr", [k; c]))
  (Hauto : autologin st = true) (Hcred : name st = "" \/ password st = "") :
  (forall st0 : Client, challengekeyid st0 = None -> exists e, login st0 = (Err e, st0)) /\
  (forall st0 : Client, name st0 = "" \/ password st0 = "" -> exists e, login st0 = (Err e, st0)) /\
  process_inputs ((room_id, inp) :: rest) st
    = (Err (Exception autologin_msg), set_challenge st k c).
Proof.
  split; [|split].
  - intros st0 H0. eexists. apply login_no_challenge. now rewrite H0.
  - exact login_no_credentials.
  - cbn [process_inputs]. unfold process_input. rewrite Hinp.
    unfold mbind, get, put, throw. cbn [String.eqb Ascii.eqb Bool.eqb].
    cbn [name password autologin set_challenge].
    destruct Hcred as [Hc|Hc]; rewrite Hc, Hauto;
      [reflexivity | destruct (truthy_str (name st)); reflexivity].
Qed.

Lemma C8_config_errors_raised_witness :
  parse_text_input "|challstr|4|abc" = ("challstr", ["4"; "abc"]) /\
  autologin (new_client "" "" 5000 true) = true /\
  (name (new_client "" "" 5000 true) = "" \/ password (new_client "" "" 5000 true) = "") /\
  process_inputs [("lobby", "|challstr|4|abc"); ("lobby", "|j|Zarel")] (new_client "" "" 5000 true)
    = (Err (Exception autologin_msg), set_challenge (new_client "" "" 5000 true) "4" "abc").
Proof.
  assert (Hinp : parse_text_input "|challstr|4|abc" = ("challstr", ["4"; "abc"]))
    by (vm_compute; reflexivity).
  assert (Ha : autologin (new_client "" "" 5000 true) = true) by reflexivity.
  assert (Hc : name (new_client "" "" 5000 true) = "" \/ password (new_client "" "" 5000 true) = "")
    by (left; reflexivity).
  split; [exact Hinp | split; [exact Ha | split; [exact Hc |]]].
  exact (proj2 (proj2 (C8_config_errors_raised _ "lobby" _ _ _ [("lobby", "|j|Zarel")] Hinp Ha Hc))).
Defined.

(** C10: a [deinit] event for a room id that is not a key of [rooms]
    raises nothing, leaves [rooms] (and the queue and login fields) as
    they were and calls no hook but the catch-all [on_receive]; in
    particular [on_room_deinit] is not called. *)
Theorem C10_deinit_unknown_room_noop (st : Client) (room_id inp : string)
  (params : list string)
  (Hinp : parse_text_input inp = ("deinit", params))
  (Hroom : rooms st !! room_id = None) :
  exists st', process_input room_id inp st = (Ok tt, st') /\
    rooms st' = rooms st /\ calls st' = app (calls st) [OnReceive room_id "deinit" params] /\
    output_queue st' = output_queue st /\ challengekeyid st' = challengekeyid st /\
    challstr st' = challstr st.
Proof.
  eexists. split.
  - unfold process_input. rewrite Hinp.
    unfold mbind, get, ret. cbn [String.eqb Ascii.eqb Bool.eqb orb].
    rewrite Hroom. rewrite Hroom. unfold record. reflexivity.
  - repeat split.
Qed.

Lemma C10_deinit_unknown_room_noop_witness :
  parse_text_input "|deinit" = ("deinit", []) /\
  rooms (new_client "" "" 5000 false) !! "battle-gen7ou-1" = None /\
  exists st', process_input "battle-gen7ou-1" "|deinit" (new_client "" "" 5000 false) = (Ok tt, st') /\
    rooms st' = rooms (new_client "" "" 5000 false) /\
    calls st' = app (calls (new_client "" "" 5000 false)) [OnReceive "battle-gen7ou-1" "deinit" []] /\
    output_queue st' = output_queue (new_client "" "" 5000 false) /\
    challengekeyid st' = challengekeyid (new_client "" "" 5000 false) /\
    challstr st' = challstr (new_client "" "" 5000 false).
Proof.
  assert (Hinp : parse_text_input "|deinit" = ("deinit", [])) by (vm_compute; reflexivity).
  assert (Hr : rooms (new_client "" "" 5000 false) !! "battle-gen7ou-1" = None) by reflexivity.
  split; [exact Hinp | split; [exact Hr |]].
  exact (C10_deinit_unknown_room_noop _ _ _ _ Hinp Hr).
Defined.

(** C4 (what the code does): [say] and [private_message] pass
    [strict=strict] to [utils.clean_message_content], which takes no such
    parameter: every call raises [TypeError] before anything is put in
    the output queue, whatever the length of the content and the value
    of [strict]. Called without the keyword, the function raises
    [NameError] on content longer than 300 ([warnings] is not imported in
    utils.py), so no truncated message is ever produced. *)
Theorem C4_send_raises_before_enqueue (room_id user_name content : string) (strict : bool)
  (st : Client) :
  say room_id content strict st = (Err TypeError, st) /\
  private_message user_name content strict st = (Err TypeError, st) /\
  (300 < String.length content -> call_clean_message_content content [] = Err NameError).
Proof.
  split; [reflexivity | split; [reflexivity |]].
  intros H. unfold call_clean_message_content, clean_message_content.
  apply Nat.ltb_lt in H. rewrite H. reflexivity.
Qed.

End Claims.

(** * Properties of the other operations *)

Module ExtraProps.
Import Utils Users Rooms Client Spec More StringProps NameToIdProps.

Lemma length_string_of_list (l : list ascii) :
  String.length (String.string_of_list_ascii l) = length l.
Proof. induction l as [|c l IH]; simpl; congruence. Qed.

Lemma length_list_of_string (s : string) :
  length (String.list_ascii_of_string s) = String.length s.
Proof. induction s as [|c s IH]; simpl; congruence. Qed.

Lemma length_append_str (a b : string) :
  String.length (a +:+ b) = String.length a + String.length b.
Proof. induction a as [|c a IH]; [reflexivity|]. rewrite append_cons. simpl. lia. Qed.

Lemma string_of_list_app (a b : list ascii) :
  String.string_of_list_ascii (app a b)
  = String.string_of_list_ascii a +:+ String.string_of_list_ascii b.
Proof. induction a as [|c a IH]; [reflexivity|]. simpl. rewrite append_cons. congruence. Qed.

Lemma drop_while_suffix (p : ascii -> bool) (l : list ascii) :
  exists xs, l = app xs (drop_while p l).
Proof.
  induction l as [|c l [xs IH]]; simpl; [now exists []|].
  destruct (p c); [exists (c :: xs); simpl; congruence | now exists []].
Qed.

Lemma drop_while_idem (p : ascii -> bool) (l : list ascii) :
  drop_while p (drop_while p l) = drop_while p l.
Proof.
  induction l as [|c l IH]; simpl; [reflexivity|].
  destruct (p c) eqn:E; [exact IH|]. simpl. now rewrite E.
Qed.

Lemma drop_while_length (p : ascii -> bool) (l : list ascii) :
  length (drop_while p l) <= length l.
Proof. destruct (drop_while_suffix p l) as [xs Hx]. rewrite Hx at 2. rewrite length_app. lia. Qed.

Lemma py_rstrip_prefix (s : string) : exists t, s = py_rstrip s +:+ t.
Proof.
  unfold py_rstrip.
  destruct (drop_while_suffix py_isspace (rev (String.list_ascii_of_string s))) as [xs Hx].
  exists (String.string_of_list_ascii (rev xs)).
  rewrite <- string_of_list_app, <- rev_app_distr, <- Hx, rev_involutive.
  now rewrite String.string_of_list_ascii_of_string.
Qed.

Lemma py_rstrip_length (s : string) : String.length (py_rstrip s) <= String.length s.
Proof.
  destruct (py_rstrip_prefix s) as [t Ht]. rewrite Ht at 2.
  rewrite length_append_str. lia.
Qed.

Lemma py_rstrip_idem (s : string) : py_rstrip (py_rstrip s) = py_rstrip s.
Proof.
  unfold py_rstrip. rewrite String.list_ascii_of_string_of_list_ascii, rev_involutive.
  now rewrite drop_while_idem.
Qed.

Lemma substring0_length (n : nat) (s : string) :
  String.length (String.substring 0 n s) <= n.
Proof.
  revert n. induction s as [|c s IH]; intros [|n]; simpl; try lia.
  specialize (IH n). lia.
Qed.

Lemma substring0_full (n : nat) (s : string) :
  String.length s <= n -> String.substring 0 n s = s.
Proof.
  revert n. induction s as [|c s IH]; intros [|n] Hn; simpl in *; try lia; try reflexivity.
  rewrite IH by lia. reflexivity.
Qed.

Lemma substring0_prefix (n : nat) (s : string) :
  exists t, s = String.substring 0 n s +:+ t.
Proof.
  revert n. induction s as [|c s IH]; intros [|n]; simpl.
  - now exists "".
  - now exists "".
  - now exists (String c s).
  - destruct (IH n) as [t Ht]. exists t. rewrite append_cons. congruence.
Qed.

Lemma py_lower_idem (s : string) : py_lower (py_lower s) = py_lower s.
Proof.
  unfold py_lower. rewrite String.list_ascii_of_string_of_list_ascii, map_map.
  f_equal. apply map_ext. apply py_lower_char_idem.
Qed.

Lemma id_chars_length (l : list ascii) : length (id_chars l) <= length l.
Proof.
  unfold id_chars. induction l as [|c l IH]; simpl; [lia|].
  destruct (py_isalnum (py_lower_char c)); simpl; lia.
Qed.

Lemma name_to_id_idem (x : string) : name_to_id (name_to_id x) = name_to_id x.
Proof.
  rewrite (name_to_id_chars (name_to_id x)).
  rewrite (name_to_id_chars x), String.list_ascii_of_string_of_list_ascii.
  rewrite id_chars_fixed by apply id_chars_props. reflexivity.
Qed.

Lemma append_cancel_l (a b c : string) : a +:+ b = a +:+ c -> b = c.
Proof. induction a as [|x a IH]; [done|]. rewrite !append_cons. intros H. injection H. exact IH. Qed.

Lemma append_not_self (a c : string) (x : ascii) : a <> a +:+ String x c.
Proof.
  intros H. apply (f_equal String.length) in H.
  rewrite length_append_str in H. simpl in H. lia.
Qed.

Lemma userlist_add_user (r : Room) (s : string) :
  userlist (add_user r s) = <[ name_to_id s := make_user s ]> (userlist r).
Proof. reflexivity. Qed.

Lemma Users_id_make_user (s : string) : Users.id (make_user s) = name_to_id s.
Proof. reflexivity. Qed.

Lemma fold_add_user_keeps (toks : list string) (r : Room) (k : string) :
  userlist r !! k <> None -> userlist (fold_left add_user toks r) !! k <> None.
Proof.
  revert r. induction toks as [|t toks IH]; intros r H; simpl; [exact H|].
  apply IH. rewrite userlist_add_user.
  destruct (decide (name_to_id t = k)) as [<-|Hne].
  - rewrite lookup_insert_eq. discriminate.
  - rewrite lookup_insert_ne by exact Hne. exact H.
Qed.

Lemma fold_add_user_adds (toks : list string) (r : Room) (tok : string) :
  In tok toks -> userlist (fold_left add_user toks r) !! name_to_id tok <> None.
Proof.
  revert r. induction toks as [|t toks IH]; intros r Hin; simpl; [destruct Hin|].
  destruct Hin as [<-|Hin]; [|now apply IH].
  apply fold_add_user_keeps. rewrite userlist_add_user, lookup_insert_eq. discriminate.
Qed.

Lemma deque_append_spec (m : nat) (l : list string) (x : string) :
  length (deque_append m l x) = Nat.min m (S (length l)) /\
  (0 < m -> exists pre, deque_append m l x = app pre [x]).
Proof.
  unfold deque_append. rewrite length_drop, length_app. simpl. split; [lia|].
  intros Hm. exists (drop (length l + 1 - m) l). apply drop_app_le. lia.
Qed.

Lemma obj_room_log_content (o : RoomObj) (c : string) :
  obj_room (log_content o c)
  = set_logs (obj_room o) (deque_append (max_logs (obj_room o)) (logs (obj_room o)) c).
Proof. destruct o; reflexivity. Qed.

Lemma set_room_same (b : Battle) : set_room b (room b) = b.
Proof. destruct b; reflexivity. Qed.

Lemma room_update_other (r : Room) (t : string) (params : list string) :
  t <> "title" -> t <> "users" -> t <> "n" -> t <> "l" -> t <> "j" ->
  room_update r t params = Ok r.
Proof.
  intros H1 H2 H3 H4 H5. unfold room_update.
  apply String.eqb_neq in H1, H2, H3, H4, H5. now rewrite H1, H2, H3, H4, H5.
Qed.

Lemma update_obj_init (o : RoomObj) (ps : list string) : update_obj o "init" ps = Ok o.
Proof.
  destruct o as [r|b]; cbn [update_obj].
  - rewrite room_update_other by discriminate. destruct r; reflexivity.
  - unfold battle_update. rewrite room_update_other by discriminate.
    cbn [bind]. rewrite set_room_same. destruct b; reflexivity.
Qed.


Lemma mbind_assoc {A B C} (m : M A) (k : A -> M B) (k' : B -> M C) (st : Client) :
  mbind (mbind m k) k' st = mbind m (fun a => mbind (k a) k') st.
Proof. unfold mbind. destruct (m st) as [[a|e] st']; reflexivity. Qed.

Lemma process_input_init (room_id inp ty : string) (ps : list string) (st : Client) :
  parse_text_input inp = ("init", ty :: ps) ->
  let o := make_room ty room_id (max_room_logs st) in
  exists st', process_input room_id inp st = (Ok tt, st') /\
    rooms st' = <[ room_id := log_content o inp ]> (rooms st) /\
    calls st' = app (calls st) [OnRoomInit o; OnReceive room_id "init" (ty :: ps)] /\
    output_queue st' = output_queue st /\ max_room_logs st' = max_room_logs st /\
    name st' = name st /\ challengekeyid st' = challengekeyid st.
Proof.
  intros Hp o. unfold process_input. rewrite Hp. cbn.
  rewrite lookup_insert_eq. unfold room_add_content. cbn. rewrite Hp.
  rewrite update_obj_init. cbn.
  eexists. split; [reflexivity|]. cbn.
  rewrite <- app_assoc. repeat split. rewrite !insert_insert_eq. reflexivity.
Qed.

Lemma process_input_deinit (room_id inp : string) (ps : list string) (o : RoomObj) (st : Client) :
  parse_text_input inp = ("deinit", ps) -> rooms st !! room_id = Some o ->
  exists st', process_input room_id inp st = (Ok tt, st') /\
    rooms st' = delete room_id (rooms st) /\
    calls st' = app (calls st) [OnRoomDeinit o; OnReceive room_id "deinit" ps] /\
    output_queue st' = output_queue st.
Proof.
  intros Hp Ho. unfold process_input. rewrite Hp. cbn. unfold mbind at 1 2, get. cbn beta iota. rewrite Ho. cbn.
  rewrite lookup_delete_eq. cbn.
  eexists. split; [reflexivity|]. cbn. rewrite <- app_assoc. repeat split.
Qed.

Section KeepRooms.
Variable R : gmap string RoomObj.

Lemma keeps_bind {A B} (m : M A) (k : A -> M B) :
  (forall st, rooms st = R -> rooms (snd (m st)) = R) ->
  (forall a st, rooms st = R -> rooms (snd (k a st)) = R) ->
  forall st, rooms st = R -> rooms (snd (mbind m k st)) = R.
Proof.
  intros Hm Hk st Hst. unfold mbind.
  specialize (Hm st Hst). destruct (m st) as [[a|e] st']; simpl in *; auto.
Qed.

Lemma keeps_get_bind {B} (k : Client -> M B) :
  (forall st, rooms st = R -> rooms (snd (k st st)) = R) ->
  forall st, rooms st = R -> rooms (snd (mbind get k st)) = R.
Proof. intros Hk st Hst. exact (Hk st Hst). Qed.

Lemma keeps_ret {A} (a : A) : forall st, rooms st = R -> rooms (snd (ret a st)) = R.
Proof. intros st H. exact H. Qed.

Lemma keeps_throw {A} (e : exn) : forall st, rooms st = R -> rooms (snd (@throw A e st)) = R.
Proof. intros st H. exact H. Qed.

Lemma keeps_lift {A} (r : result A) : forall st, rooms st = R -> rooms (snd (lift r st)) = R.
Proof. intros st H. exact H. Qed.

Lemma keeps_record (c : Call) : forall st, rooms st = R -> rooms (snd (record c st)) = R.
Proof. intros st H. exact H. Qed.

Lemma keeps_login : forall st, rooms st = R -> rooms (snd (login st)) = R.
Proof.
  unfold login. apply keeps_get_bind. intros st Hst.
  repeat match goal with |- context [if ?b then _ else _] => destruct b end;
    auto using keeps_throw, keeps_record.
Qed.

End KeepRooms.

Lemma process_input_keeps_rooms (room_id inp : string) (st : Client) :
  fst (parse_text_input inp) <> "init" -> rooms st !! room_id = None ->
  rooms (snd (process_input room_id inp st)) = rooms st.
Proof.
  intros Ht Hnone. unfold process_input.
  destruct (parse_text_input inp) as [t ps]. simpl in Ht.
  apply (String.eqb_neq t "init") in Ht.
  set (R := rooms st) in *. assert (Hst : rooms st = R) by reflexivity.
  clearbody R. revert st Hst.
  apply keeps_bind; [| intros _; apply keeps_get_bind; intros st Hst;
    rewrite Hst, Hnone; exact Hst].
  rewrite Ht.
  destruct (String.eqb t "challstr").
  { destruct ps as [|k [|c [|x rest]]]; try apply keeps_throw.
    apply keeps_get_bind. intros st Hst. refine (keeps_bind R _ _ _ _ st Hst).
    - intros st' _. exact Hst.
    - intros _. apply keeps_get_bind. intros st' Hst'.
      repeat match goal with |- context [if ?b then _ else _] => destruct b end;
        first [exact (keeps_login R st' Hst') | exact Hst']. }
  destruct (String.eqb t "queryresponse").
  { apply keeps_bind; [apply keeps_lift | intros a; apply keeps_record]. }
  destruct (String.eqb t "c:" || String.eqb t "c"); [apply keeps_record|].
  destruct (String.eqb t "pm"); [apply keeps_record|].
  destruct (String.eqb t "deinit"); [|apply keeps_ret].
  apply keeps_get_bind. intros st Hst. rewrite Hst, Hnone. exact Hst.
Qed.

End ExtraProps.

Module Extras.
Import Utils Users Rooms Client Spec More StringProps NameToIdProps ExtraProps.

(** [abbreviate] never returns more than 23 characters: at most 20 of
    the content and the three dots. *)
Theorem abbreviate_length_bound (content : string) :
  String.length (abbreviate content) <= 23.
Proof.
  unfold abbreviate. rewrite length_append_str.
  pose proof (py_rstrip_length (String.substring 0 20 content)).
  pose proof (substring0_length 20 content).
  destruct (20 <? String.length content)%nat; simpl; lia.
Qed.

(** Content of at most 20 characters is returned whole, only its
    trailing whitespace removed, and without dots. *)
Theorem abbreviate_short (content : string) :
  String.length content <= 20 -> abbreviate content = py_rstrip content.
Proof.
  intros H. unfold abbreviate. rewrite substring0_full by exact H.
  replace (20 <? String.length content)%nat with false
    by (symmetry; apply Nat.ltb_ge; exact H).
  apply append_empty_r.
Qed.

Lemma abbreviate_short_witness :
  String.length "hello  " <= 20 /\ abbreviate "hello  " = py_rstrip "hello  ".
Proof. split; [simpl; lia | apply (abbreviate_short "hello  "); simpl; lia]. Defined.

(** Content longer than 20 characters is cut to a prefix of at most 20
    characters without trailing whitespace, followed by ["..."]. *)
Theorem abbreviate_long (content : string) :
  20 < String.length content ->
  exists p t, abbreviate content = p +:+ "..." /\ content = p +:+ t /\
    String.length p <= 20 /\ py_rstrip p = p.
Proof.
  intros H. set (sub := String.substring 0 20 content).
  destruct (substring0_prefix 20 content) as [t1 Ht1].
  destruct (py_rstrip_prefix sub) as [t2 Ht2].
  exists (py_rstrip sub), (t2 +:+ t1). repeat split.
  - unfold abbreviate. fold sub.
    replace (20 <? String.length content)%nat with true
      by (symmetry; apply Nat.ltb_lt; exact H). reflexivity.
  - rewrite <- append_assoc_str, <- Ht2. exact Ht1.
  - pose proof (py_rstrip_length sub). pose proof (substring0_length 20 content).
    unfold sub in *. lia.
  - apply py_rstrip_idem.
Qed.

Lemma abbreviate_long_witness :
  20 < String.length "The quick brown fox jumps over the lazy dog" /\
  exists p t, abbreviate "The quick brown fox jumps over the lazy dog" = p +:+ "..." /\
    "The quick brown fox jumps over the lazy dog" = p +:+ t /\
    String.length p <= 20 /\ py_rstrip p = p.
Proof.
  split; [simpl; lia|].
  apply (abbreviate_long "The quick brown fox jumps over the lazy dog"). simpl; lia.
Defined.

(** Every character of a [name_to_id] result is an alphanumeric that
    [str.lower] leaves unchanged (so no whitespace), and the result is
    never longer than the input. *)
Theorem name_to_id_shape (x : string) :
  Forall (fun c => py_isalnum c = true /\ py_lower_char c = c /\ py_isspace c = false)
    (String.list_ascii_of_string (name_to_id x)) /\
  String.length (name_to_id x) <= String.length x.
Proof.
  rewrite name_to_id_chars, String.list_ascii_of_string_of_list_ascii. split.
  - eapply Forall_impl; [apply id_chars_props|].
    intros c [Ha Hl]. repeat split; [exact Ha | exact Hl | now apply alnum_not_space].
  - rewrite length_string_of_list, <- length_list_of_string.
    apply id_chars_length.
Qed.

(** A line whose stripped text has no pipe is raw text: its one
    parameter is the stripped line. *)
Theorem parse_text_input_rawtext (text_input : string) :
  has_char "|" (py_strip text_input) = false ->
  parse_text_input text_input = ("rawtext", [py_strip text_input]).
Proof.
  intros H. unfold parse_text_input, py_split.
  rewrite split_aux_nosep by exact H. reflexivity.
Qed.

Lemma parse_text_input_rawtext_witness :
  has_char "|" (py_strip "  Hello, world!  ") = false /\
  parse_text_input "  Hello, world!  " = ("rawtext", [py_strip "  Hello, world!  "]).
Proof.
  split; [vm_compute; reflexivity|].
  apply (parse_text_input_rawtext "  Hello, world!  "). vm_compute. reflexivity.
Defined.

(** The event type returned by [parse_text_input] is always in lower
    case: [str.lower] leaves it unchanged. *)
Theorem parse_text_input_type_lower (text_input : string) :
  py_lower (fst (parse_text_input text_input)) = fst (parse_text_input text_input).
Proof.
  unfold parse_text_input.
  destruct (py_split (py_strip text_input) "|") as [|t0 [|t1 rest]]; simpl;
    [vm_compute; reflexivity | vm_compute; reflexivity | apply py_lower_idem].
Qed.

(** [query_battles] normalizes the tier twice; the second [name_to_id]
    changes nothing, so a tier and its normalized id give the same
    query. *)
Theorem query_battles_tier_normalized (tier : string) (min_elo : option Z) :
  query_battles (name_to_id tier) min_elo = query_battles tier min_elo.
Proof. unfold query_battles. now rewrite !name_to_id_idem. Qed.

(** Two [query_battles] calls with the same tier put the same command in
    the queue only when they ask for the same minimum rating (or both
    for none). *)
Theorem query_battles_min_elo_inj (tier : string) (e1 e2 : option Z) (st : Client) :
  output_queue (snd (query_battles tier e1 st)) = output_queue (snd (query_battles tier e2 st)) ->
  e1 = e2.
Proof.
  unfold query_battles, add_output. simpl. intros H.
  apply app_inv_head in H. injection H as H.
  destruct e1 as [x1|], e2 as [x2|].
  - apply append_cancel_l in H. apply append_cancel_l in H. apply (inj pretty) in H. congruence.
  - symmetry in H. exfalso. exact (append_not_self _ _ _ H).
  - exfalso. exact (append_not_self _ _ _ H).
  - reflexivity.
Qed.

Lemma query_battles_min_elo_inj_witness :
  output_queue (snd (query_battles "OU" (Some 1500%Z) (new_client "a" "b" 10 false)))
  = output_queue (snd (query_battles "OU" (Some 1500%Z) (new_client "a" "b" 10 false))) /\
  Some 1500%Z = Some 1500%Z.
Proof.
  split; [reflexivity|].
  apply (query_battles_min_elo_inj "OU" (Some 1500%Z) (Some 1500%Z)
           (new_client "a" "b" 10 false)).
  reflexivity.
Defined.

(** Every spelling of the lobby that normalizes to ["lobby"] is joined
    and left as the empty room id. *)
Theorem join_leave_lobby_alias (room_id : string) (st : Client) :
  name_to_id room_id = "lobby" ->
  join room_id st = join "" st /\ leave room_id st = leave "" st /\
  output_queue (snd (join room_id st)) = app (output_queue st) ["|/join "].
Proof. intros H. unfold join, leave. rewrite H. repeat split; reflexivity. Qed.

Lemma join_leave_lobby_alias_witness :
  name_to_id " Lobby! " = "lobby" /\
  join " Lobby! " (new_client "a" "b" 10 false) = join "" (new_client "a" "b" 10 false) /\
  leave " Lobby! " (new_client "a" "b" 10 false) = leave "" (new_client "a" "b" 10 false) /\
  output_queue (snd (join " Lobby! " (new_client "a" "b" 10 false)))
  = app (output_queue (new_client "a" "b" 10 false)) ["|/join "].
Proof.
  split; [vm_compute; reflexivity|].
  apply (join_leave_lobby_alias " Lobby! " (new_client "a" "b" 10 false)).
  vm_compute. reflexivity.
Defined.


(** For a missing team ([None]), [search_battles] uploads the text
    ["None"], where [validate_team] uploads ["null"]. *)
Theorem search_validate_none_team (battle_format : string) (st : Client) :
  output_queue (snd (search_battles None battle_format st))
  = app (output_queue st) ["|/utm None"; "|/search " +:+ name_to_id battle_format] /\
  output_queue (snd (validate_team None battle_format st))
  = app (output_queue st) ["|/utm null"; "|/vtm " +:+ name_to_id battle_format].
Proof. unfold search_battles, validate_team. simpl. now rewrite <- !app_assoc. Qed.

(** [Room.add_content] logs into a bounded deque: after logging, the
    log holds [min max_logs (old length + 1)] entries, the latest ones of
    the old log followed by the new line, and the bound is unchanged. *)
Theorem log_content_bounded (o : RoomObj) (content : string) :
  length (logs (obj_room (log_content o content)))
  = Nat.min (max_logs (obj_room o)) (S (length (logs (obj_room o)))) /\
  max_logs (obj_room (log_content o content)) = max_logs (obj_room o) /\
  exists k, logs (obj_room (log_content o content)) = drop k (app (logs (obj_room o)) [content]).
Proof.
  rewrite obj_room_log_content. cbn [logs max_logs set_logs].
  destruct (deque_append_spec (max_logs (obj_room o)) (logs (obj_room o)) content) as [Hl _].
  split; [exact Hl|]. split; [reflexivity|]. eexists. reflexivity.
Qed.

(** With a positive [max_logs], the line just logged is the last entry
    of the log. *)
Theorem log_content_last (o : RoomObj) (content : string) :
  0 < max_logs (obj_room o) ->
  exists pre, logs (obj_room (log_content o content)) = app pre [content].
Proof.
  intros Hm. rewrite obj_room_log_content.
  exact (proj2 (deque_append_spec _ _ _) Hm).
Qed.

Lemma log_content_last_witness :
  0 < max_logs (obj_room (make_room "chat" "lobby" 2)) /\
  exists pre, logs (obj_room (log_content (make_room "chat" "lobby" 2) "|j|zarel"))
              = app pre ["|j|zarel"].
Proof.
  split; [simpl; lia|].
  apply (log_content_last (make_room "chat" "lobby" 2) "|j|zarel"). simpl; lia.
Defined.

(** A join followed by a leave of the same user, under any spelling that
    normalizes to the same id, gives back the room, when that user was
    not listed before. *)
Theorem join_then_leave_restores (r : Room) (s1 s2 : string) :
  name_to_id s1 = name_to_id s2 -> userlist r !! name_to_id s1 = None ->
  room_apply r [("j", [s1]); ("l", [s2])] = Ok r.
Proof.
  intros Heq Hnone. cbn [room_apply]. unfold room_update. cbn -[name_to_id add_user remove_user].
  unfold remove_user. rewrite userlist_add_user, <- Heq, delete_insert_id by exact Hnone.
  destruct r; reflexivity.
Qed.

Lemma join_then_leave_restores_witness :
  name_to_id "+Zarel" = name_to_id "zarel" /\
  userlist (new_room "lobby" 10) !! name_to_id "+Zarel" = None /\
  room_apply (new_room "lobby" 10) [("j", ["+Zarel"]); ("l", ["zarel"])] = Ok (new_room "lobby" 10).
Proof.
  split; [vm_compute; reflexivity|]. split; [vm_compute; reflexivity|].
  apply (join_then_leave_restores (new_room "lobby" 10) "+Zarel" "zarel");
    vm_compute; reflexivity.
Defined.

(** A rename event [n] with a new name and an old id lists the user
    under the id of the new name, removes the old id as given (when it
    differs from the new id) and leaves every other user in place. *)
Theorem rename_event (r : Room) (user_str old_id : string) :
  exists r', room_update r "n" [user_str; old_id] = Ok r' /\
    userlist r' !! name_to_id user_str = Some (make_user user_str) /\
    (old_id <> name_to_id user_str -> userlist r' !! old_id = None) /\
    (forall k, k <> old_id -> k <> name_to_id user_str -> userlist r' !! k = userlist r !! k) /\
    title r' = title r /\ logs r' = logs r.
Proof.
  eexists. split; [reflexivity|]. cbn [add_user remove_user userlist set_userlist title logs].
  rewrite (Users_id_make_user user_str).
  repeat split.
  - apply lookup_insert_eq.
  - intros Hne. rewrite lookup_insert_ne by congruence. apply lookup_delete_eq.
  - intros k H1 H2. rewrite lookup_insert_ne by congruence.
    apply lookup_delete_ne. congruence.
Qed.

(** [user_str, old_id = params] in the [n] branch: any other number of
    parameters raises [ValueError]. *)
Theorem rename_event_arity (r : Room) (params : list string) :
  length params <> 2 -> room_update r "n" params = Err ValueError.
Proof.
  intros H. unfold room_update. cbn -[add_user remove_user].
  destruct params as [|a [|b [|c rest]]]; simpl in H; try reflexivity; lia.
Qed.

Lemma rename_event_arity_witness :
  length ["zarel"] <> 2 /\ room_update (new_room "lobby" 10) "n" ["zarel"] = Err ValueError.
Proof.
  split; [simpl; lia|].
  apply (rename_event_arity (new_room "lobby" 10) ["zarel"]). simpl; lia.
Defined.

(** A [users] event lists every user of the roster after its first
    comma-separated field (the count) and removes no one. *)
Theorem users_event_roster (r : Room) (p0 : string) (ps : list string) :
  exists r', room_update r "users" (p0 :: ps) = Ok r' /\
    (forall tok, In tok (tail (py_split p0 ",")) -> userlist r' !! name_to_id tok <> None) /\
    (forall k, userlist r !! k <> None -> userlist r' !! k <> None).
Proof.
  eexists. split; [reflexivity|]. split.
  - intros tok Hin. now apply fold_add_user_adds.
  - intros k Hk. now apply fold_add_user_keeps.
Qed.

(** A [win] naming the display name of the [p1] player makes [p1] the
    winner and whatever is in the [p2] slot the loser. *)
Theorem win_p1_matches (b : Battle) (u1 : User) (p2 : option User)
  (winner_name : string) (ps : list string) :
  players b !! "p1" = Some (Some u1) -> players b !! "p2" = Some p2 ->
  name_matches u1 winner_name = true ->
  exists b', battle_update b "win" (winner_name :: ps) = Ok b' /\
    winner b' = Some u1 /\ loser b' = p2 /\ winner_id b' = Some "p1" /\
    loser_id b' = Some "p2" /\ ended b' = true /\ players b' = players b /\ room b' = room b.
Proof.
  intros H1 H2 Hm. unfold battle_update.
  rewrite room_update_other by discriminate. cbn [bind]. rewrite set_room_same.
  cbn -[player player_matches]. unfold player at 1. rewrite H1. cbn [bind player_matches].
  rewrite Hm. unfold player. rewrite H2. cbn [bind].
  eexists. split; [reflexivity|]. repeat split.
Qed.

Lemma win_p1_matches_witness :
  let b := {| room := new_room "battle-1" 10; rules := [];
              players := <[ "p1" := Some (make_user "Ash") ]>
                           (<[ "p2" := Some (make_user "Gary") ]> ∅);
              rated := false; ended := false; tier := None; winner := None;
              loser := None; winner_id := None; loser_id := None |} in
  players b !! "p1" = Some (Some (make_user "Ash")) /\
  players b !! "p2" = Some (Some (make_user "Gary")) /\
  name_matches (make_user "Ash") "Ash" = true /\
  exists b', battle_update b "win" ["Ash"] = Ok b' /\
    winner b' = Some (make_user "Ash") /\ loser b' = Some (make_user "Gary") /\
    winner_id b' = Some "p1" /\ loser_id b' = Some "p2" /\ ended b' = true /\
    players b' = players b /\ room b' = room b.
Proof.
  intros b. split; [reflexivity|]. split; [reflexivity|]. split; [reflexivity|].
  apply (win_p1_matches b (make_user "Ash") (Some (make_user "Gary")) "Ash" []);
    reflexivity.
Defined.

(** A [win] naming the [p2] player, and not the [p1] player, makes [p2]
    the winner and the [p1] player the loser. *)
Theorem win_p2_matches (b : Battle) (u1 u2 : User) (winner_name : string) (ps : list string) :
  players b !! "p1" = Some (Some u1) -> players b !! "p2" = Some (Some u2) ->
  name_matches u1 winner_name = false -> name_matches u2 winner_name = true ->
  exists b', battle_update b "win" (winner_name :: ps) = Ok b' /\
    winner b' = Some u2 /\ loser b' = Some u1 /\ winner_id b' = Some "p2" /\
    loser_id b' = Some "p1" /\ ended b' = true /\ players b' = players b /\ room b' = room b.
Proof.
  intros H1 H2 Hm1 Hm2. unfold battle_update.
  rewrite room_update_other by discriminate. cbn [bind]. rewrite set_room_same.
  cbn -[player player_matches]. unfold player. rewrite H1. cbn [bind player_matches].
  rewrite Hm1, H2. cbn [bind player_matches]. rewrite Hm2.
  cbn [bind]. eexists. split; [reflexivity|]. repeat split.
Qed.

Lemma win_p2_matches_witness :
  let b := {| room := new_room "battle-1" 10; rules := [];
              players := <[ "p1" := Some (make_user "Ash") ]>
                           (<[ "p2" := Some (make_user "Gary") ]> ∅);
              rated := false; ended := false; tier := None; winner := None;
              loser := None; winner_id := None; loser_id := None |} in
  players b !! "p1" = Some (Some (make_user "Ash")) /\
  players b !! "p2" = Some (Some (make_user "Gary")) /\
  name_matches (make_user "Ash") "Gary" = false /\
  name_matches (make_user "Gary") "Gary" = true /\
  exists b', battle_update b "win" ["Gary"] = Ok b' /\
    winner b' = Some (make_user "Gary") /\ loser b' = Some (make_user "Ash") /\
    winner_id b' = Some "p2" /\ loser_id b' = Some "p1" /\ ended b' = true /\
    players b' = players b /\ room b' = room b.
Proof.
  intros b. do 4 (split; [reflexivity|]).
  apply (win_p2_matches b (make_user "Ash") (make_user "Gary") "Gary" []); reflexivity.
Defined.

(** A [win] in a battle whose players have not been announced raises
    [AttributeError] ([None.name_matches]). *)
Theorem win_before_players (room_id winner_name : string) (max_logs : nat) (ps : list string) :
  battle_update (new_battle room_id max_logs) "win" (winner_name :: ps) = Err AttributeError.
Proof. reflexivity. Qed.

(** A [win] naming someone other than the [p1] player, while the [p2]
    slot is still unset, also raises [AttributeError]. *)
Theorem win_p2_unset (b : Battle) (u1 : User) (winner_name : string) (ps : list string) :
  players b !! "p1" = Some (Some u1) -> players b !! "p2" = Some None ->
  name_matches u1 winner_name = false ->
  battle_update b "win" (winner_name :: ps) = Err AttributeError.
Proof.
  intros H1 H2 Hm. unfold battle_update.
  rewrite room_update_other by discriminate. cbn [bind]. rewrite set_room_same.
  cbn -[player player_matches]. unfold player. rewrite H1. cbn [bind player_matches].
  rewrite Hm, H2. reflexivity.
Qed.

Lemma win_p2_unset_witness :
  let b := {| room := new_room "battle-1" 10; rules := [];
              players := <[ "p1" := Some (make_user "Ash") ]> (<[ "p2" := None ]> ∅);
              rated := false; ended := false; tier := None; winner := None;
              loser := None; winner_id := None; loser_id := None |} in
  players b !! "p1" = Some (Some (make_user "Ash")) /\ players b !! "p2" = Some None /\
  name_matches (make_user "Ash") "Gary" = false /\
  battle_update b "win" ["Gary"] = Err AttributeError.
Proof.
  intros b. do 3 (split; [reflexivity|]).
  apply (win_p2_unset b (make_user "Ash") "Gary" []); reflexivity.
Defined.

(** From a new battle, announcing two players of different names and then
    a win of the second one records the second as winner, the first as
    loser, and ends the battle. *)
Theorem players_then_win (room_id n1 n2 : string) (max_logs : nat) :
  n1 <> n2 ->
  exists b, battle_apply (new_battle room_id max_logs)
              [("player", ["p1"; n1]); ("player", ["p2"; n2]); ("win", [n2])] = Ok b /\
    winner b = Some (make_user n2) /\ loser b = Some (make_user n1) /\
    winner_id b = Some "p2" /\ loser_id b = Some "p1" /\ ended b = true.
Proof.
  intros Hne. cbn [battle_apply]. unfold battle_update.
  rewrite !room_update_other by discriminate. cbn -[make_user name_matches player].
  unfold player. cbn [players set_room].
  repeat first [rewrite lookup_insert_eq | rewrite lookup_insert_ne by discriminate].
  cbn -[make_user name_matches].
  replace (name_matches (make_user n1) n2) with false
    by (symmetry; apply String.eqb_neq; exact Hne).
  replace (name_matches (make_user n2) n2) with true
    by (symmetry; apply String.eqb_refl).
  eexists. split; [reflexivity|]. repeat split.
Qed.

Lemma players_then_win_witness :
  "Ash" <> "Gary" /\
  exists b, battle_apply (new_battle "battle-1" 10)
              [("player", ["p1"; "Ash"]); ("player", ["p2"; "Gary"]); ("win", ["Gary"])] = Ok b /\
    winner b = Some (make_user "Gary") /\ loser b = Some (make_user "Ash") /\
    winner_id b = Some "p2" /\ loser_id b = Some "p1" /\ ended b = true.
Proof.
  split; [discriminate|].
  apply (players_then_win "battle-1" "Ash" "Gary" 10). discriminate.
Defined.

(** [Client.receiver] on a frame other than ["o"] that
    [parse_socket_input] cannot decode (no ['a'] prefix, a [json.loads]
    error, an empty block) raises that exception before any event is
    processed: the client is left as it was. *)
Theorem receiver_undecodable (on_connect : M unit) (json_loads : string -> result (list string))
  (socket_input : string) (e : exn) (st : Client) :
  socket_input <> "o" -> parse_socket_input json_loads socket_input = Err e ->
  receiver on_connect json_loads socket_input st = (Err e, st).
Proof.
  intros Ho He. unfold receiver.
  replace (String.eqb socket_input "o") with false by (symmetry; now apply String.eqb_neq).
  unfold mbind, lift. now rewrite He.
Qed.

Lemma receiver_undecodable_witness :
  "h" <> "o" /\ parse_socket_input json_loads_examples "h" = Err ValueError /\
  receiver (ret tt) json_loads_examples "h" (new_client "a" "b" 10 false)
  = (Err ValueError, new_client "a" "b" 10 false).
Proof.
  split; [discriminate|]. split; [reflexivity|].
  apply (receiver_undecodable (ret tt) json_loads_examples "h" ValueError
           (new_client "a" "b" 10 false)); [discriminate | reflexivity].
Defined.



(** An [init] followed by a [deinit] for a room the client did not know
    leaves the client's rooms as they were; the hooks see the new room,
    then the same room with the [init] line logged. *)
Theorem init_deinit_roundtrip (room_id i1 i2 ty : string) (ps ps2 : list string) (st : Client) :
  parse_text_input i1 = ("init", ty :: ps) -> parse_text_input i2 = ("deinit", ps2) ->
  rooms st !! room_id = None ->
  let o := make_room ty room_id (max_room_logs st) in
  exists st', process_inputs [(room_id, i1); (room_id, i2)] st = (Ok tt, st') /\
    rooms st' = rooms st /\ output_queue st' = output_queue st /\
    calls st' = app (calls st) [OnRoomInit o; OnReceive room_id "init" (ty :: ps);
                                OnRoomDeinit (log_content o i1); OnReceive room_id "deinit" ps2].
Proof.
  intros H1 H2 Hnone o.
  destruct (process_input_init room_id i1 ty ps st H1) as (st1 & E1 & R1 & C1 & Q1 & M1 & _).
  destruct (process_input_deinit room_id i2 ps2 (log_content o i1) st1 H2)
    as (st2 & E2 & R2 & C2 & Q2).
  { rewrite R1. apply lookup_insert_eq. }
  exists st2. cbn [process_inputs]. unfold mbind at 1. rewrite E1.
  unfold mbind. rewrite E2. split; [reflexivity|]. repeat split.
  - rewrite R2, R1, delete_insert_eq. now apply delete_id.
  - congruence.
  - rewrite C2, C1, <- app_assoc. reflexivity.
Qed.

Lemma init_deinit_roundtrip_witness :
  parse_text_input "|init|chat" = ("init", ["chat"]) /\
  parse_text_input "|deinit" = ("deinit", []) /\
  rooms (new_client "a" "b" 10 false) !! "lobby" = None /\
  let o := make_room "chat" "lobby" (max_room_logs (new_client "a" "b" 10 false)) in
  exists st', process_inputs [("lobby", "|init|chat"); ("lobby", "|deinit")]
                (new_client "a" "b" 10 false) = (Ok tt, st') /\
    rooms st' = rooms (new_client "a" "b" 10 false) /\
    output_queue st' = output_queue (new_client "a" "b" 10 false) /\
    calls st' = app (calls (new_client "a" "b" 10 false))
                  [OnRoomInit o; OnReceive "lobby" "init" ["chat"];
                   OnRoomDeinit (log_content o "|init|chat"); OnReceive "lobby" "deinit" []].
Proof.
  split; [vm_compute; reflexivity|]. split; [vm_compute; reflexivity|].
  split; [reflexivity|].
  apply (init_deinit_roundtrip "lobby" "|init|chat" "|deinit" "chat" [] []
           (new_client "a" "b" 10 false)); [vm_compute; reflexivity | vm_compute; reflexivity
                                            | reflexivity].
Defined.



(** Only an [init] event adds a room: any other event for a room the
    client does not know, [deinit] included, leaves the rooms as they
    were, also when it raises. *)
Theorem no_room_without_init (room_id inp : string) (st : Client) :
  fst (parse_text_input inp) <> "init" -> rooms st !! room_id = None ->
  rooms (snd (process_input room_id inp st)) = rooms st.
Proof. apply process_input_keeps_rooms. Qed.

Lemma no_room_without_init_witness :
  fst (parse_text_input "|c:|1|zarel|hi") <> "init" /\
  rooms (new_client "a" "b" 10 false) !! "lobby" = None /\
  rooms (snd (process_input "lobby" "|c:|1|zarel|hi" (new_client "a" "b" 10 false)))
  = rooms (new_client "a" "b" 10 false).
Proof.
  split; [vm_compute; discriminate|]. split; [reflexivity|].
  apply (no_room_without_init "lobby" "|c:|1|zarel|hi" (new_client "a" "b" 10 false));
    [vm_compute; discriminate | reflexivity].
Defined.

(** The [Room] and [Battle] methods behind [require_client], called as
    written, without a [client=] argument: with no client they raise the
    [Exception] naming the class, with a client they raise
    [AttributeError] on [None]; either way nothing is queued and the
    client is unchanged. *)
Theorem room_methods_without_client_arg (o : RoomObj) (b : Battle) (content : string)
  (has_client client_arg : bool) (st : Client) :
  negb (has_client && client_arg) = true ->
  room_request_auth o has_client client_arg st
    = (Err (if has_client then AttributeError else Exception (no_client_msg o)), st) /\
  room_say o content has_client client_arg st
    = (Err (if has_client then AttributeError else Exception (no_client_msg o)), st) /\
  room_join o has_client client_arg st
    = (Err (if has_client then AttributeError else Exception (no_client_msg o)), st) /\
  room_leave o has_client client_arg st
    = (Err (if has_client then AttributeError else Exception (no_client_msg o)), st) /\
  battle_save_replay b has_client client_arg st
    = (Err (if has_client then AttributeError
            else Exception (no_client_msg (BattleRoom b))), st).
Proof.
  intros H. destruct has_client, client_arg; try discriminate H; repeat split.
Qed.

Lemma room_methods_without_client_arg_witness :
  negb (true && false) = true /\
  room_request_auth (make_room "chat" "lobby" 10) true false (new_client "a" "b" 10 false)
    = (Err AttributeError, new_client "a" "b" 10 false) /\
  room_say (make_room "chat" "lobby" 10) "hi" true false (new_client "a" "b" 10 false)
    = (Err AttributeError, new_client "a" "b" 10 false) /\
  room_join (make_room "chat" "lobby" 10) true false (new_client "a" "b" 10 false)
    = (Err AttributeError, new_client "a" "b" 10 false) /\
  room_leave (make_room "chat" "lobby" 10) true false (new_client "a" "b" 10 false)
    = (Err AttributeError, new_client "a" "b" 10 false) /\
  battle_save_replay (new_battle "battle-1" 10) true false (new_client "a" "b" 10 false)
    = (Err AttributeError, new_client "a" "b" 10 false).
Proof.
  split; [reflexivity|].
  exact (room_methods_without_client_arg (make_room "chat" "lobby" 10) (new_battle "battle-1" 10)
           "hi" true false (new_client "a" "b" 10 false) eq_refl).
Defined.

(** Two methods fail even when called with [client=]: [Battle.forfeit]
    reads the missing attribute [battle_id], and [Room.say] goes through
    [Client.say], whose [clean_message_content(content, strict=...)]
    call raises [TypeError]. Neither queues anything. *)
Theorem forfeit_and_room_say_raise (b : Battle) (o : RoomObj) (content : string)
  (has_client client_arg : bool) (st : Client) :
  battle_forfeit b has_client client_arg st
    = (Err (if has_client then AttributeError
            else Exception (no_client_msg (BattleRoom b))), st) /\
  room_say o content true true st = (Err TypeError, st).
Proof. split; [destruct has_client, client_arg|]; reflexivity. Qed.

(** The end of [Client.login]: when the three checks pass, the
    credential exchange is requested; a refused login raises [NameError]
    (the error message reads the undefined [result_data]) and sends
    nothing; an accepted one writes the [/trn] frame straight to the
    websocket, not through the output queue, then runs [on_login]. *)
Theorem login_complete_outcome (on_login : M unit) (d : LoginData) (st : Client)
  (sent : list string) :
  truthy (challengekeyid st) = true -> truthy_str (name st) = true ->
  truthy_str (password st) = true ->
  exists st1, login st = (Ok tt, st1) /\ output_queue st1 = output_queue st /\
    name st1 = name st /\
    (actionsuccess d = false -> login_complete on_login d st sent = (Err NameError, st1, sent)) /\
    (actionsuccess d = true ->
     login_complete on_login d st sent
     = (fst (on_login st1), snd (on_login st1),
        app sent ["[" +:+ chr 34 +:+ "|/trn " +:+ name st +:+ ",0,"
                  +:+ assertion d +:+ chr 34 +:+ "]"])).
Proof.
  intros Hk Hn Hp. unfold login_complete, login, mbind, get.
  cbn beta iota. rewrite Hk, Hn, Hp. cbn.
  eexists. split; [reflexivity|]. split; [reflexivity|]. split; [reflexivity|].
  split; intros Hs; rewrite Hs; [reflexivity|].
  destruct (on_login _); reflexivity.
Qed.

Lemma login_complete_outcome_witness :
  let st := set_challenge (new_client "ash" "pikachu" 10 true) "4" "abc" in
  truthy (challengekeyid st) = true /\ truthy_str (name st) = true /\
  truthy_str (password st) = true /\
  exists st1, login st = (Ok tt, st1) /\ output_queue st1 = output_queue st /\
    name st1 = name st /\
    (actionsuccess (mkLoginData true "tok") = false ->
     login_complete (ret tt) (mkLoginData true "tok") st [] = (Err NameError, st1, [])) /\
    (actionsuccess (mkLoginData true "tok") = true ->
     login_complete (ret tt) (mkLoginData true "tok") st []
     = (fst (ret tt st1), snd (ret tt st1),
        app [] ["[" +:+ chr 34 +:+ "|/trn " +:+ name st +:+ ",0,"
                +:+ assertion (mkLoginData true "tok") +:+ chr 34 +:+ "]"])).
Proof.
  intros st. split; [reflexivity|]. split; [reflexivity|]. split; [reflexivity|].
  apply (login_complete_outcome (ret tt) (mkLoginData true "tok") st []); reflexivity.
Defined.

End Extras.
